(** * PyDSD: [DropSizeDistribution] (pydisdrometer/DropSizeDistribution.py)

    A shallow embedding of the class [DropSizeDistribution] and of the
    numpy operations its methods call, followed by the properties of the
    rain-rate estimator, the moment calculator and the relationship fitter.

    Conventions of the embedding.
    - A numpy [float64] array is a [list R]: arithmetic is the exact
      arithmetic of the reals, [np.pi] is [PI], [np.exp] is [exp].
    - A two-dimensional array is the list of its rows.
    - A Python call either returns a value or raises: [result].  The one
      method that prints is in [Py], which also carries the printed lines.
    - An attribute that the code compares with [None] is an [option].
    - The regression routines ([expfit], scipy's [curve_fit]) are
      collaborators: the fitter is parameterised by them.  So is pytmatrix
      for the scattering side: [calc_radar_parameters] takes a [Pytmatrix],
      and its outcome can also be a [KeyError] ([outcome]). *)

From Stdlib Require Import Reals Lra Lia String Bool Arith.
From Stdlib Require Import List.
Import ListNotations.

Open Scope R_scope.

(** ** Outcomes of a Python call *)

(** The exceptions the modelled operations raise; [RuntimeError] is what a
    regression that does not converge raises. *)

Inductive exn : Type :=
| AttributeError
| IndexError
| TypeError
| ValueError
| RuntimeError.

Inductive result (A : Type) : Type :=
| Ok (a : A)
| Raise (e : exn).

Arguments Ok {A} a.
Arguments Raise {A} e.

Definition bind {A B : Type} (c : result A) (k : A -> result B) : result B :=
  match c with
  | Ok a => k a
  | Raise e => Raise e
  end.

Declare Scope py_scope.
Delimit Scope py_scope with py.
Notation "x <- c ;; k" := (bind c (fun x => k))
  (at level 61, c at next level, right associativity) : py_scope.
Open Scope py_scope.

(** [x] where the code needs an array and the attribute may be [None]. *)
Definition array_of {A : Type} (x : option A) : result A :=
  match x with
  | Some a => Ok a
  | None => Raise TypeError
  end.

(** ** The numpy operations used by the class *)

Definition np_zeros (n : nat) : list R := repeat 0 n.
Definition np_ones (n : nat) : list R := repeat 1 n.

Fixpoint zip_with {A B C : Type} (f : A -> B -> C) (a : list A) (b : list B)
  : list C :=
  match a, b with
  | x :: a', y :: b' => f x y :: zip_with f a' b'
  | _, _ => []
  end.

(** Elementwise binary operation on one-dimensional arrays, with numpy's
    broadcasting: equal lengths, or one operand of length one; any other
    pair of shapes raises [ValueError]. *)
Definition broadcast2 {A B C : Type} (f : A -> B -> C) (a : list A) (b : list B)
  : result (list C) :=
  if Nat.eqb (length a) (length b) then Ok (zip_with f a b)
  else match a, b with
       | [x], _ => Ok (map (f x) b)
       | _, [y] => Ok (map (fun x => f x y) a)
       | _, _ => Raise ValueError
       end.

Definition np_multiply : list R -> list R -> result (list R) := broadcast2 Rmult.
Definition np_logical_and : list bool -> list bool -> result (list bool) :=
  broadcast2 andb.

(** [np.sum] of a one-dimensional array. *)
Definition np_sum (a : list R) : R := fold_right Rplus 0 a.

(** [np.power] on a positive base, which is where the class evaluates it
    (diameters, [10] in [__idb], and the filtered series of the fit). *)
Definition np_power (x y : R) : R := Rpower x y.

(** [a > 0] on one number and on an array. *)
Definition gt0 (x : R) : bool := if Rlt_dec 0 x then true else false.
Definition np_gt0 (a : list R) : list bool := map gt0 a.

(** [a[i]] for an index [i >= 0]. *)
Definition getitem {A : Type} (a : list A) (i : nat) : result A :=
  match nth_error a i with
  | Some x => Ok x
  | None => Raise IndexError
  end.

Fixpoint update {A : Type} (a : list A) (i : nat) (v : A) : list A :=
  match a, i with
  | [], _ => []
  | _ :: a', O => v :: a'
  | x :: a', S j => x :: update a' j v
  end.

(** [a[i] = v] for an index [i >= 0]. *)
Definition setitem {A : Type} (a : list A) (i : nat) (v : A) : result (list A) :=
  if Nat.ltb i (length a) then Ok (update a i v) else Raise IndexError.

Fixpoint select {A : Type} (a : list A) (mask : list bool) : list A :=
  match a, mask with
  | x :: a', m :: mask' => if m then x :: select a' mask' else select a' mask'
  | _, _ => []
  end.

(** [a[mask]] for a boolean array [mask]: the entries of [a] at the true
    positions, in order; the mask has to be as long as the array. *)
Definition mask_index {A : Type} (a : list A) (mask : list bool)
  : result (list A) :=
  if Nat.eqb (length a) (length mask) then Ok (select a mask)
  else Raise IndexError.

(** ** The class *)

Record DropSizeDistribution : Type := mkDSD {
  time : list R;
  Nd : list (list R);
  spread : list R;
  rain_rate : option (list R);
  velocity : option (list R);
  Z : option (list R);
  num_particles : option (list R);
  bin_edges : option (list R);
  diameter : option (list R);
  Zh : option (list R);
  Zdr : list R;
  Kdp : list R;
  Ai : list R
}.

Definition set_rain_rate (self : DropSizeDistribution) (rr : option (list R))
  : DropSizeDistribution :=
  mkDSD (time self) (Nd self) (spread self) rr (velocity self) (Z self)
        (num_particles self) (bin_edges self) (diameter self)
        (Zh self) (Zdr self) (Kdp self) (Ai self).

Definition set_bin_edges (self : DropSizeDistribution) (be : option (list R))
  : DropSizeDistribution :=
  mkDSD (time self) (Nd self) (spread self) (rain_rate self) (velocity self)
        (Z self) (num_particles self) be (diameter self)
        (Zh self) (Zdr self) (Kdp self) (Ai self).

Definition set_Nd (self : DropSizeDistribution) (nd : list (list R))
  : DropSizeDistribution :=
  mkDSD (time self) nd (spread self) (rain_rate self) (velocity self)
        (Z self) (num_particles self) (bin_edges self) (diameter self)
        (Zh self) (Zdr self) (Kdp self) (Ai self).

(** [DropSizeDistribution.__init__]: stores its arguments and allocates the
    four radar series as zeros of length [len(time)]. *)
Definition __init__ (time : list R) (Nd : list (list R)) (spread : list R)
  (rain_rate velocity Z num_particles bin_edges diameter : option (list R))
  : result DropSizeDistribution :=
  let lt := length time in
  Ok (mkDSD time Nd spread rain_rate velocity Z num_particles bin_edges
            diameter (Some (np_zeros lt)) (np_zeros lt) (np_zeros lt)
            (np_zeros lt)).

(** [mmultiply]: the running elementwise product of its arguments, started
    from [np.ones(len(args[0]))]. *)
Fixpoint mmultiply_from (i_value : list R) (args : list (list R))
  : result (list R) :=
  match args with
  | [] => Ok i_value
  | i :: rest =>
      i_value' <- np_multiply i_value i ;;
      mmultiply_from i_value' rest
  end.

Definition mmultiply (args : list (list R)) : result (list R) :=
  a0 <- getitem args 0 ;;
  mmultiply_from (np_ones (length a0)) args.

(** The body of the loop of [calculate_RR] for one [t]. *)
Definition calculate_RR_step (self : DropSizeDistribution)
  (rain_rate : list R) (t : nat) : result (list R) :=
  d <- array_of (diameter self) ;;
  let velocity := map (fun D => 9.65 - 10.3 * exp (- 0.6 * D)) d in
  velocity <- setitem velocity 0 0.5 ;;
  row <- getitem (Nd self) t ;;
  prod <- mmultiply [velocity; row; spread self; map (fun D => D ^ 3) d] ;;
  setitem rain_rate t (0.6 * PI * 1e-03 * np_sum prod).

Fixpoint calculate_RR_loop (self : DropSizeDistribution)
  (rain_rate : list R) (ts : list nat) : result (list R) :=
  match ts with
  | [] => Ok rain_rate
  | t :: ts' =>
      rain_rate' <- calculate_RR_step self rain_rate t ;;
      calculate_RR_loop self rain_rate' ts'
  end.

(** [calculate_RR]: returns the object with its [rain_rate] replaced; when
    the loop raises, the exception is the outcome. *)
Definition calculate_RR (self : DropSizeDistribution)
  : result DropSizeDistribution :=
  let n := length (time self) in
  rr <- calculate_RR_loop self (np_zeros n) (seq 0 n) ;;
  Ok (set_rain_rate self (Some rr)).

(** [np.time]: numpy exports no attribute of that name. *)
Definition np_time : result (list R) := Raise AttributeError.

(** An operation on one-dimensional arrays applied to a two-dimensional
    one, row by row: how a vector operand is broadcast along the rows. *)
Fixpoint map_rows (f : list R -> result (list R)) (m : list (list R))
  : result (list (list R)) :=
  match m with
  | [] => Ok []
  | row :: m' =>
      r <- f row ;;
      rs <- map_rows f m' ;;
      Ok (r :: rs)
  end.

(** Storing a two-dimensional array into one slot of a float array: only an
    array of a single element converts. *)
Definition as_scalar (m : list (list R)) : result R :=
  match m with
  | [[x]] => Ok x
  | _ => Raise ValueError
  end.

Fixpoint _calc_mth_moment_loop (self : DropSizeDistribution) (m : R)
  (bin_width mth_moment : list R) (ts : list nat) : result (list R) :=
  match ts with
  | [] => Ok mth_moment
  | t :: ts' =>
      d <- array_of (diameter self) ;;
      let dmth := map (fun D => np_power D m) d in
      p <- map_rows (np_multiply dmth) (Nd self) ;;
      q <- map_rows (fun row => np_multiply row bin_width) p ;;
      x <- as_scalar q ;;
      mth_moment' <- setitem mth_moment t x ;;
      _calc_mth_moment_loop self m bin_width mth_moment' ts'
  end.

(** [_calc_mth_moment]. *)
Definition _calc_mth_moment (self : DropSizeDistribution) (m : R)
  : result (list R) :=
  be <- array_of (bin_edges self) ;;
  let bin_width :=
    map (fun i => nth (i + 1) be 0 - nth i be 0) (seq 0 (length be - 1)) in
  tm <- np_time ;;
  let mth_moment := np_zeros (length tm) in
  _calc_mth_moment_loop self m bin_width mth_moment
                        (seq 0 (length (time self))).

(** ** The relationship fitter *)

(** Optimal parameters and covariance matrix, as the regression returns
    them. *)
Definition fit : Type := (list R * list (list R))%type.

(** The model function handed to [curve_fit]. *)
Definition model : Type :=
  list R -> list R -> list R -> R -> R -> R -> R -> result (list R).

(** [expfit(x, y)] and [curve_fit(f, xdata, ydata)]: each returns the pair
    [(popt, pcov)] or raises; a value that does not unpack into two raises
    at the assignment [popt, pcov = ...]. *)
Definition expfit_t : Type := list R -> list R -> result fit.
Definition curve_fit_t : Type :=
  model -> (list R * list R * list R) -> list R -> result fit.

(** [calc_R_kdp_relationship]; what it returns is always the pair. *)
Definition calc_R_kdp_relationship (expfit : expfit_t)
  (self : DropSizeDistribution) : result (option fit) :=
  rr <- array_of (rain_rate self) ;;
  filt <- np_logical_and (np_gt0 (Kdp self)) (np_gt0 rr) ;;
  x <- mask_index (Kdp self) filt ;;
  y <- mask_index rr filt ;;
  popt_pcov <- expfit x y ;;
  Ok (Some popt_pcov).

(** [calc_R_Zh_relationship]. *)
Definition calc_R_Zh_relationship (expfit : expfit_t)
  (self : DropSizeDistribution) : result (option fit) :=
  zh <- array_of (Zh self) ;;
  rr <- array_of (rain_rate self) ;;
  z <- mask_index zh (np_gt0 rr) ;;
  let x := map (fun v => np_power 10 (0.1 * v)) z in
  y <- mask_index rr (np_gt0 rr) ;;
  popt_pcov <- expfit x y ;;
  Ok (Some popt_pcov).

(** [__idb]. *)
Definition __idb (db : list R) : list R :=
  map (fun v => np_power 10 (0.1 * v)) db.

(** The [lambda] of the three-moment case. *)
Definition fit_func : model :=
  fun x1 x2 x3 a b c d =>
    p <- np_multiply (map (fun v => np_power v b) (__idb x1))
                     (map (fun v => np_power v c) (__idb x2)) ;;
    q <- np_multiply p (map (fun v => np_power v d) x3) ;;
    Ok (map (Rmult a) q).

(** A call that may print before it returns or raises: the lines printed,
    in order, and the outcome. *)
Definition Py (A : Type) : Type := (list string * result A)%type.

Definition py_ret {A : Type} (a : A) : Py A := ([], Ok a).

Definition py_bind {A B : Type} (c : Py A) (k : A -> Py B) : Py B :=
  match c with
  | (out, Ok a) => let (out', r) := k a in ((out ++ out')%list, r)
  | (out, Raise e) => (out, Raise e)
  end.

Definition print (s : string) : Py unit := ([s], Ok tt).
Definition lift {A : Type} (c : result A) : Py A := ([], c).

Notation "x <~ c ;; k" := (py_bind c (fun x => k))
  (at level 61, c at next level, right associativity) : py_scope.

(** [s in moments] for a list of strings. *)
Definition contains (s : string) (moments : list string) : bool :=
  existsb (String.eqb s) moments.

(** [calc_rainfall_relationship(moments)]. *)
Definition calc_rainfall_relationship (curve_fit : curve_fit_t)
  (self : DropSizeDistribution) (moments : option (list string))
  : Py (option fit) :=
  match rain_rate self with
  | None => _ <~ print "No Rain Rate Present" ;; py_ret None
  | Some rr =>
  match Zh self with
  | None =>
      _ <~ print "No Radar Calculated Variables Present.                     Please run calc_radar_moments()" ;;
      py_ret None
  | Some zh =>
  match moments with
  | None => _ <~ print "No moments selected" ;; py_ret None
  | Some ms =>
      filt <~ lift (np_logical_and (np_gt0 (Kdp self)) (np_gt0 rr)) ;;
      let lzh := length zh in
      let x1 := np_ones lzh in
      let x2 := np_ones lzh in
      let x3 := np_ones lzh in
      let x1 := if contains "reflectivity" ms then zh else x1 in
      let x2 := if contains "differential_reflectivity" ms then Zdr self else x2 in
      let x3 := if contains "specific_differential_phase" ms then Kdp self else x3 in
      if Nat.eqb (length ms) 3 then
        f1 <~ lift (mask_index x1 filt) ;;
        f2 <~ lift (mask_index x2 filt) ;;
        f3 <~ lift (mask_index x3 filt) ;;
        popt_pcov <~ lift (curve_fit fit_func (f1, f2, f3) [1; 1; 1; 1]) ;;
        py_ret (Some popt_pcov)
      else
        _ <~ (if Nat.ltb (length ms) 3 then print "Have not implemented 2 yet"
              else py_ret tt) ;;
        py_ret None
  end end end.

(** ** The quantities of the specification *)

(** The sum of [f i] over [i < n]. *)
Definition bigsum (n : nat) (f : nat -> R) : R :=
  fold_right Rplus 0 (map f (seq 0 n)).

(** [Nd[t, i]]. *)
Definition entry (nd : list (list R)) (t i : nat) : R := nth i (nth t nd []) 0.

(** The velocity model: bin [0], the smallest of an ordered diameter
    sequence, is fixed at [0.5]. *)
Definition velocity_spec (i : nat) (D : R) : R :=
  if Nat.eqb i 0 then 0.5 else 9.65 - 10.3 * exp (- 0.6 * D).

(** What one bin contributes to the rain rate per unit of concentration. *)
Definition bin_weight (self : DropSizeDistribution) (d : list R) (i : nat) : R :=
  velocity_spec i (nth i d 0) * nth i (spread self) 0 * nth i d 0 ^ 3.

(** [R(t)] as the specification writes it. *)
Definition rain_rate_at (self : DropSizeDistribution) (d : list R) (t : nat) : R :=
  0.6 * PI * 1e-3 *
  bigsum (length d) (fun i =>
    velocity_spec i (nth i d 0) * entry (Nd self) t i * nth i (spread self) 0
    * nth i d 0 ^ 3).

Definition rain_rate_spec (self : DropSizeDistribution) (d : list R) : list R :=
  map (rain_rate_at self d) (seq 0 (length (time self))).

(** [moment(t)] as the specification writes it. *)
Definition moment_spec (self : DropSizeDistribution) (d : list R) (m : R)
  : list R :=
  map (fun t => bigsum (length d) (fun i =>
         np_power (nth i d 0) m * entry (Nd self) t i * nth i (spread self) 0))
      (seq 0 (length (time self))).

(** The shape invariants of the data model, for a DSD of at least one bin
    with bin centres [d]. *)
Definition well_shaped (self : DropSizeDistribution) (d : list R) : Prop :=
  diameter self = Some d /\
  (0 < length d)%nat /\
  length (spread self) = length d /\
  length (Nd self) = length (time self) /\
  Forall (fun row => length row = length d) (Nd self).

(** The timesteps that pass a positivity filter, in increasing order. *)
Definition kept (p : nat -> bool) (n : nat) : list nat := filter p (seq 0 n).

Definition kdp_rr_positive (kdp rr : list R) (t : nat) : bool :=
  gt0 (nth t kdp 0) && gt0 (nth t rr 0).

Definition rr_positive (rr : list R) (t : nat) : bool := gt0 (nth t rr 0).

(** [a] restricted to the timesteps [ts]. *)
Definition at_steps (a : list R) (ts : list nat) : list R :=
  map (fun t => nth t a 0) ts.

(** [Nd] with the concentration of bin [i] at timestep [t] replaced. *)
Definition with_entry (nd : list (list R)) (t i : nat) (x : R)
  : list (list R) :=
  update nd t (update (nth t nd []) i x).

(** A regression routine that hands back what it was given: the pair of its
    two data arguments. *)
Definition expfit_echo : expfit_t := fun x y => Ok (x, [y]).
Definition curve_fit_echo : curve_fit_t :=
  fun _ xdata ydata => let '(f1, f2, f3) := xdata in Ok (ydata, [f1; f2; f3]).

(** The value a fitting method returns from the outcome of its regression
    call: the pair, or the exception passed on. *)
Definition fit_outcome (r : result fit) : result (option fit) :=
  match r with
  | Ok popt_pcov => Ok (Some popt_pcov)
  | Raise e => Raise e
  end.

(** The timesteps with [Kdp[t] > 0] and [rain_rate[t] > 0]. *)
Definition fit_steps (self : DropSizeDistribution) (rr : list R) : list nat :=
  kept (kdp_rr_positive (Kdp self) rr) (length rr).

(** The independent data of the three-moment fit over the timesteps [ts]:
    a moment that is not selected is the all-ones series. *)
Definition fit_xdata (self : DropSizeDistribution) (ms : list string)
  (zh : list R) (ts : list nat) : list R * list R * list R :=
  (at_steps (if contains "reflectivity" ms then zh
             else np_ones (length zh)) ts,
   at_steps (if contains "differential_reflectivity" ms then Zdr self
             else np_ones (length zh)) ts,
   at_steps (if contains "specific_differential_phase" ms then Kdp self
             else np_ones (length zh)) ts).

(** The series the fitter reads are present and as long as each other. *)
Definition radar_ready (self : DropSizeDistribution) (rr zh : list R) : Prop :=
  rain_rate self = Some rr /\ Zh self = Some zh /\
  length (Kdp self) = length rr /\ length zh = length rr /\
  length (Zdr self) = length rr.

(** ** Sample objects *)

(** One timestep, three bins, two drops per unit volume in the 1.0 mm bin. *)
Definition dsd_scenario : DropSizeDistribution :=
  mkDSD [0] [[0; 2; 0]] [0.5; 0.5; 0.5] None None None None
        (Some [0.25; 0.75; 1.25; 1.75]) (Some [0.5; 1; 1.5])
        (Some [0]) [0] [0] [0].

(** Two narrow bins below a tenth of a millimetre, no drops. *)
Definition dsd_drizzle : DropSizeDistribution :=
  mkDSD [0] [[0; 0]] [0.02; 0.06] None None None None
        (Some [0; 0.02; 0.08]) (Some [0.01; 0.05])
        (Some [0]) [0] [0] [0].

(** Three timesteps with radar series; only the first has both [Kdp] and
    the rain rate positive. *)
Definition dsd_radar : DropSizeDistribution :=
  mkDSD [0; 1; 2] [[1]; [1]; [1]] [1] (Some [1; 3; 0]) None None None
        (Some [0; 1]) (Some [0.5])
        (Some [10; 20; 30]) [1; 2; 3] [0.5; 0; 2] [0; 0; 0].

(** Two timesteps, none with both [Kdp] and the rain rate positive. *)
Definition dsd_dry : DropSizeDistribution :=
  mkDSD [0; 1] [[0]; [0]] [1] (Some [1; 0]) None None None
        (Some [0; 1]) (Some [0.5])
        (Some [0; 0]) [0; 0] [0; 0] [0; 0].

(** ** [__get_last_nonzero] *)

Definition is_nonzero (x : R) : bool := if Req_dec_T x 0 then false else true.

(** [N.nonzero()] for a one-dimensional array: the indices of the entries
    that are not zero, in increasing order. *)
Definition np_nonzero (N : list R) : list nat :=
  filter (fun i => is_nonzero (nth i N 0)) (seq 0 (length N)).

(** [np.max] of an array of indices; an empty array has no maximum. *)
Definition np_max (a : list nat) : result nat :=
  match a with
  | [] => Raise ValueError
  | i :: a' => Ok (fold_left Nat.max a' i)
  end.

(** [__get_last_nonzero(N)]. *)
Definition __get_last_nonzero (N : list R) : result nat :=
  np_max (np_nonzero N).

(** ** More quantities for the properties below *)

(** The product of the entries at index [i] of the arrays [args]. *)
Definition product_at (args : list (list R)) (i : nat) : R :=
  fold_left (fun acc a => acc * nth i a 0) args 1.

(** Concentrations scaled by [c], and the sum of two concentration
    matrices. *)
Definition scale_Nd (c : R) (nd : list (list R)) : list (list R) :=
  map (map (Rmult c)) nd.

Definition add_Nd (nd1 nd2 : list (list R)) : list (list R) :=
  zip_with (zip_with Rplus) nd1 nd2.

(** The object with other timestamps. *)
Definition set_time (self : DropSizeDistribution) (tm : list R)
  : DropSizeDistribution :=
  mkDSD tm (Nd self) (spread self) (rain_rate self) (velocity self)
        (Z self) (num_particles self) (bin_edges self) (diameter self)
        (Zh self) (Zdr self) (Kdp self) (Ai self).

(** ** The scattering side: [_setup_scattering], [calc_radar_parameters] *)

(** The two viewing geometries of [tmatrix_aux] the class uses. *)
Inductive geometry : Type := geom_horiz_back | geom_horiz_forw.

(** What a call of the scattering side raises: [KeyError] for a wavelength
    that is not a key of the refractive-index table, or one of the
    exceptions above. *)
Inductive scattering_exn : Type :=
| KeyError
| PyExn (e : exn).

Inductive outcome (A : Type) : Type :=
| Done (a : A)
| Failed (e : scattering_exn).

Arguments Done {A} a.
Arguments Failed {A} e.

Definition obind {A B : Type} (c : outcome A) (k : A -> outcome B)
  : outcome B :=
  match c with
  | Done a => k a
  | Failed e => Failed e
  end.

Notation "x <-- c ;; k" := (obind c (fun x => k))
  (at level 61, c at next level, right associativity) : py_scope.

Definition of_result {A : Type} (r : result A) : outcome A :=
  match r with
  | Ok a => Done a
  | Raise e => Failed (PyExn e)
  end.

(** [d[key]] for a dictionary [d]. *)
Definition lookup {A : Type} (found : option A) : outcome A :=
  match found with
  | Some a => Done a
  | None => Failed KeyError
  end.

(** The attributes of a pytmatrix [Scatterer] that the class sets or that
    its collaborators read, those of its [psd_integrator] included; the
    scattering table, the size distribution, the orientation density and
    the orientation method are values of the collaborator's own types. *)
Record Scatterer (table_t psd_t or_pdf_t orient_t : Type) : Type :=
  mkScatterer {
    sc_wavelength : R;
    sc_m : R * R;
    axis_ratio_func : option (R -> R);
    D_max : option R;
    geometries : list geometry;
    or_pdf : option or_pdf_t;
    orient : option orient_t;
    scatter_table : option table_t;
    psd : option psd_t;
    geom : option geometry
  }.

Arguments mkScatterer {table_t psd_t or_pdf_t orient_t}.
Arguments sc_wavelength {table_t psd_t or_pdf_t orient_t}.
Arguments sc_m {table_t psd_t or_pdf_t orient_t}.
Arguments axis_ratio_func {table_t psd_t or_pdf_t orient_t}.
Arguments D_max {table_t psd_t or_pdf_t orient_t}.
Arguments geometries {table_t psd_t or_pdf_t orient_t}.
Arguments or_pdf {table_t psd_t or_pdf_t orient_t}.
Arguments orient {table_t psd_t or_pdf_t orient_t}.
Arguments scatter_table {table_t psd_t or_pdf_t orient_t}.
Arguments psd {table_t psd_t or_pdf_t orient_t}.
Arguments geom {table_t psd_t or_pdf_t orient_t}.

(** What the class uses of pytmatrix and of [DSR]: the refractive-index
    table [refractive.m_w_10C], the axis ratio [DSR.bc], the orientation
    density and method, the construction of the scattering table and of a
    binned size distribution, and the four radar observables, each read off
    a scatterer. *)
Record Pytmatrix : Type := mkPytmatrix {
  table_t : Type;
  psd_t : Type;
  or_pdf_t : Type;
  orient_t : Type;
  wl_X : R;
  m_w_10C : R -> option (R * R);
  bc : R -> R;
  gaussian_pdf : R -> or_pdf_t;
  orient_averaged_fixed : orient_t;
  init_scatter_table :
    Scatterer table_t psd_t or_pdf_t orient_t -> result table_t;
  BinnedPSD : option (list R) -> list R -> result psd_t;
  radar_Zdr : Scatterer table_t psd_t or_pdf_t orient_t -> result R;
  radar_refl : Scatterer table_t psd_t or_pdf_t orient_t -> result R;
  radar_Kdp : Scatterer table_t psd_t or_pdf_t orient_t -> result R;
  radar_Ai : Scatterer table_t psd_t or_pdf_t orient_t -> result R
}.

Definition scatterer (E : Pytmatrix) : Type :=
  Scatterer (table_t E) (psd_t E) (or_pdf_t E) (orient_t E).

Definition set_psd {E : Pytmatrix} (sc : scatterer E) (p : psd_t E)
  : scatterer E :=
  mkScatterer (sc_wavelength sc) (sc_m sc) (axis_ratio_func sc) (D_max sc)
              (geometries sc) (or_pdf sc) (orient sc) (scatter_table sc)
              (Some p) (geom sc).

Definition set_geometry {E : Pytmatrix} (sc : scatterer E) (g : geometry)
  : scatterer E :=
  mkScatterer (sc_wavelength sc) (sc_m sc) (axis_ratio_func sc) (D_max sc)
              (geometries sc) (or_pdf sc) (orient sc) (scatter_table sc)
              (psd sc) (Some g).

(** [_setup_scattering(wavelength)]: returns the scatterer it stores in
    [self.scatterer]. *)
Definition _setup_scattering (E : Pytmatrix) (wl : R) : outcome (scatterer E) :=
  m_w <-- lookup (m_w_10C E wl) ;;
  let sc : scatterer E :=
    mkScatterer wl m_w
                (Some (fun D => 1 / bc E D)) (Some 10)
                [geom_horiz_back; geom_horiz_forw]
                (Some (gaussian_pdf E 20)) (Some (orient_averaged_fixed E))
                None None None in
  table <-- of_result (init_scatter_table E sc) ;;
  Done (mkScatterer (sc_wavelength sc) (sc_m sc) (axis_ratio_func sc) (D_max sc)
                    (geometries sc) (or_pdf sc) (orient sc) (Some table)
                    (psd sc) (geom sc)).

(** [np.log10] on a positive argument, where it is finite. *)
Definition np_log10 (x : R) : R := ln x / ln 10.

Definition set_Zdr (self : DropSizeDistribution) (a : list R)
  : DropSizeDistribution :=
  mkDSD (time self) (Nd self) (spread self) (rain_rate self) (velocity self)
        (Z self) (num_particles self) (bin_edges self) (diameter self)
        (Zh self) a (Kdp self) (Ai self).

Definition set_Zh (self : DropSizeDistribution) (a : option (list R))
  : DropSizeDistribution :=
  mkDSD (time self) (Nd self) (spread self) (rain_rate self) (velocity self)
        (Z self) (num_particles self) (bin_edges self) (diameter self)
        a (Zdr self) (Kdp self) (Ai self).

Definition set_Kdp (self : DropSizeDistribution) (a : list R)
  : DropSizeDistribution :=
  mkDSD (time self) (Nd self) (spread self) (rain_rate self) (velocity self)
        (Z self) (num_particles self) (bin_edges self) (diameter self)
        (Zh self) (Zdr self) a (Ai self).

Definition set_Ai (self : DropSizeDistribution) (a : list R)
  : DropSizeDistribution :=
  mkDSD (time self) (Nd self) (spread self) (rain_rate self) (velocity self)
        (Z self) (num_particles self) (bin_edges self) (diameter self)
        (Zh self) (Zdr self) (Kdp self) a.

(** The body of the loop of [calc_radar_parameters] for one [t], on the
    object and its scatterer. *)
Definition calc_radar_parameters_step (E : Pytmatrix)
  (st : DropSizeDistribution * scatterer E) (t : nat)
  : outcome (DropSizeDistribution * scatterer E) :=
  let '(self, sc) := st in
  row <-- of_result (getitem (Nd self) t) ;;
  BinnedDSD <-- of_result (BinnedPSD E (bin_edges self) row) ;;
  let sc := set_psd sc BinnedDSD in
  let sc := set_geometry sc geom_horiz_back in
  zdr <-- of_result (radar_Zdr E sc) ;;
  a <-- of_result (setitem (Zdr self) t (10 * np_log10 zdr)) ;;
  let self := set_Zdr self a in
  refl <-- of_result (radar_refl E sc) ;;
  zh <-- of_result (array_of (Zh self)) ;;
  a <-- of_result (setitem zh t (10 * np_log10 refl)) ;;
  let self := set_Zh self (Some a) in
  let sc := set_geometry sc geom_horiz_forw in
  kdp <-- of_result (radar_Kdp E sc) ;;
  a <-- of_result (setitem (Kdp self) t kdp) ;;
  let self := set_Kdp self a in
  ai <-- of_result (radar_Ai E sc) ;;
  a <-- of_result (setitem (Ai self) t ai) ;;
  let self := set_Ai self a in
  Done (self, sc).

Fixpoint calc_radar_parameters_loop (E : Pytmatrix)
  (st : DropSizeDistribution * scatterer E) (ts : list nat)
  : outcome (DropSizeDistribution * scatterer E) :=
  match ts with
  | [] => Done st
  | t :: ts' =>
      st' <-- calc_radar_parameters_step E st t ;;
      calc_radar_parameters_loop E st' ts'
  end.

(** [calc_radar_parameters(wavelength)]: returns the object with its radar
    series filled, and the scatterer it holds. *)
Definition calc_radar_parameters (E : Pytmatrix)
  (self : DropSizeDistribution) (wl : R)
  : outcome (DropSizeDistribution * scatterer E) :=
  sc <-- _setup_scattering E wl ;;
  calc_radar_parameters_loop E (self, sc) (seq 0 (length (time self))).

(** The four observables of one concentration row, as the loop reads them
    off the scatterer [sc]: differential reflectivity and reflectivity in
    the backscatter geometry, phase and attenuation in the forward one. *)
Definition observables (E : Pytmatrix) (sc : scatterer E)
  (be : option (list R)) (row : list R) : result (R * R * R * R) :=
  p <- BinnedPSD E be row ;;
  let back := set_geometry (set_psd sc p) geom_horiz_back in
  let forw := set_geometry (set_psd sc p) geom_horiz_forw in
  zdr <- radar_Zdr E back ;;
  refl <- radar_refl E back ;;
  kdp <- radar_Kdp E forw ;;
  ai <- radar_Ai E forw ;;
  Ok (zdr, refl, kdp, ai).

Definition obs_Zdr (o : R * R * R * R) : R := fst (fst (fst o)).
Definition obs_refl (o : R * R * R * R) : R := snd (fst (fst o)).
Definition obs_Kdp (o : R * R * R * R) : R := snd (fst o).
Definition obs_Ai (o : R * R * R * R) : R := snd o.

(** The object with its four radar series replaced. *)
Definition with_series (self : DropSizeDistribution)
  (zdr zh kdp ai : list R) : DropSizeDistribution :=
  set_Ai (set_Kdp (set_Zh (set_Zdr self zdr) (Some zh)) kdp) ai.

(** Two scatterers that differ at most in the size distribution and the
    geometry they currently hold. *)
Definition same_setup {E : Pytmatrix} (sc1 sc2 : scatterer E) : Prop :=
  forall p g, set_geometry (set_psd sc1 p) g = set_geometry (set_psd sc2 p) g.

(** A scattering collaborator to run the class against: two wavelengths
    are supported, a size distribution is its concentration row, and the
    observables are simple functions of the row and the geometry. *)
Definition sample_pytmatrix : Pytmatrix :=
  mkPytmatrix unit (list R) unit unit
    33.3
    (fun wl => if Req_dec_T wl 33.3 then Some (7.7, 2.2)
               else if Req_dec_T wl 53.5 then Some (8.3, 1.7) else None)
    (fun D => 1 + D)
    (fun _ => tt) tt
    (fun _ => Ok tt)
    (fun be row =>
       match be with
       | Some e => if Nat.eqb (length e) (length row + 1) then Ok row
                   else Raise ValueError
       | None => Raise TypeError
       end)
    (fun sc => Ok 2)
    (fun sc => Ok (1 + np_sum (match psd sc with Some p => p | None => [] end)))
    (fun sc => Ok (np_sum (match psd sc with Some p => p | None => [] end)))
    (fun sc => Ok 0).

(** The scatterer that collaborator sets up for its first wavelength. *)
Definition sample_scatterer : scatterer sample_pytmatrix :=
  mkScatterer 33.3 (7.7, 2.2) (Some (fun D => 1 / (1 + D))) (Some 10)
              [geom_horiz_back; geom_horiz_forw] (Some tt) (Some tt)
              (Some tt) None None.

(** Its observables for the one row of [dsd_scenario]. *)
Definition sample_obs (t : nat) : R * R * R * R :=
  (2, 1 + np_sum [0; 2; 0], np_sum [0; 2; 0], 0).

(** ** Proof steps used more than once *)

(** The shape of a sample object: unfold it and check each length. *)
Ltac check_shape :=
  cbn; repeat split;
  try reflexivity; try (apply Nat.lt_0_succ); try (repeat constructor).

(** Decide every comparison with zero that a filter makes on literals. *)
Ltac decide_gt0 :=
  unfold gt0; cbn;
  repeat match goal with
         | |- context [Rlt_dec ?a ?b] => destruct (Rlt_dec a b); try lra
         end.

(** ** Arrays by index *)

Lemma zip_with_length {A B C : Type} (f : A -> B -> C) :
  forall a b, length a = length b -> length (zip_with f a b) = length a.
Proof.
  induction a as [|x a IH]; intros [|y b] H; simpl in *; try discriminate; auto.
Qed.

Lemma zip_with_nth {A B C : Type} (f : A -> B -> C) (da : A) (db : B) (dc : C) :
  forall a b i, length a = length b -> (i < length a)%nat ->
    nth i (zip_with f a b) dc = f (nth i a da) (nth i b db).
Proof.
  induction a as [|x a IH]; intros [|y b] i H Hi; simpl in *;
    try discriminate; try lia.
  destruct i as [|i]; [reflexivity|].
  apply IH; lia.
Qed.

Lemma np_multiply_same (a b : list R) :
  length a = length b -> np_multiply a b = Ok (zip_with Rmult a b).
Proof.
  intros H. unfold np_multiply, broadcast2.
  rewrite H, Nat.eqb_refl. reflexivity.
Qed.

Lemma update_length {A : Type} (v : A) :
  forall a i, length (update a i v) = length a.
Proof.
  induction a as [|x a IH]; intros [|i]; simpl; auto.
Qed.

Lemma update_nth_same {A : Type} (v dflt : A) :
  forall a i, (i < length a)%nat -> nth i (update a i v) dflt = v.
Proof.
  induction a as [|x a IH]; intros [|i] H; simpl in *; try lia; auto.
  apply IH; lia.
Qed.

Lemma update_nth_other {A : Type} (v dflt : A) :
  forall a i j, i <> j -> nth j (update a i v) dflt = nth j a dflt.
Proof.
  induction a as [|x a IH]; intros [|i] [|j] H; simpl; auto; try congruence.
Qed.

Lemma setitem_ok {A : Type} (a : list A) (i : nat) (v : A) :
  (i < length a)%nat -> setitem a i v = Ok (update a i v).
Proof.
  intros H. unfold setitem.
  destruct (Nat.ltb_spec i (length a)); [reflexivity | lia].
Qed.

Lemma getitem_ok {A : Type} (a : list A) (i : nat) (dflt : A) :
  (i < length a)%nat -> getitem a i = Ok (nth i a dflt).
Proof.
  intros H. unfold getitem.
  rewrite (nth_error_nth' a dflt H). reflexivity.
Qed.

Lemma np_sum_bigsum (a : list R) :
  np_sum a = bigsum (length a) (fun i => nth i a 0).
Proof.
  unfold np_sum, bigsum. f_equal.
  induction a as [|x a IH]; [reflexivity|].
  cbn [length seq map nth]. rewrite <- seq_shift, map_map.
  f_equal. exact IH.
Qed.

Lemma bigsum_ext (n : nat) (f g : nat -> R) :
  (forall i, (i < n)%nat -> f i = g i) -> bigsum n f = bigsum n g.
Proof.
  intros H. unfold bigsum. f_equal.
  apply map_ext_in. intros i Hi. apply in_seq in Hi. apply H. lia.
Qed.

Lemma nth_map_lt {A B : Type} (f : A -> B) (l : list A) (i : nat) (da : A) (dr : B) :
  (i < length l)%nat -> nth i (map f l) dr = f (nth i l da).
Proof.
  intros H. rewrite (nth_indep _ dr (f da)) by (rewrite length_map; exact H).
  apply map_nth.
Qed.

Lemma np_ones_nth (n i : nat) : (i < n)%nat -> nth i (np_ones n) 0 = 1.
Proof.
  intros H. unfold np_ones.
  rewrite (nth_indep _ 0 1) by (rewrite repeat_length; exact H).
  apply nth_repeat.
Qed.

(** ** [calculate_RR] computes the rain rate of the specification *)

Lemma mmultiply_four (a b c e : list R) (n : nat) :
  length a = n -> length b = n -> length c = n -> length e = n ->
  exists p, mmultiply [a; b; c; e] = Ok p /\ length p = n /\
    forall i, (i < n)%nat ->
      nth i p 0 = nth i a 0 * nth i b 0 * nth i c 0 * nth i e 0.
Proof.
  intros Ha Hb Hc He.
  set (p1 := zip_with Rmult (np_ones n) a).
  set (p2 := zip_with Rmult p1 b).
  set (p3 := zip_with Rmult p2 c).
  set (p4 := zip_with Rmult p3 e).
  assert (L0 : length (np_ones n) = n) by apply repeat_length.
  assert (L1 : length p1 = n)
    by (unfold p1; rewrite zip_with_length; congruence).
  assert (L2 : length p2 = n)
    by (unfold p2; rewrite zip_with_length; congruence).
  assert (L3 : length p3 = n)
    by (unfold p3; rewrite zip_with_length; congruence).
  exists p4. split; [|split].
  - unfold mmultiply. cbn [getitem nth_error bind mmultiply_from].
    rewrite Ha.
    rewrite (np_multiply_same (np_ones n) a) by congruence. cbn [bind]. fold p1.
    rewrite (np_multiply_same p1 b) by congruence. cbn [bind]. fold p2.
    rewrite (np_multiply_same p2 c) by congruence. cbn [bind]. fold p3.
    rewrite (np_multiply_same p3 e) by congruence. reflexivity.
  - unfold p4. rewrite zip_with_length; congruence.
  - intros i Hi.
    unfold p4. rewrite (zip_with_nth Rmult 0 0 0 p3 e i) by lia.
    unfold p3. rewrite (zip_with_nth Rmult 0 0 0 p2 c i) by lia.
    unfold p2. rewrite (zip_with_nth Rmult 0 0 0 p1 b i) by lia.
    unfold p1. rewrite (zip_with_nth Rmult 0 0 0 (np_ones n) a i) by lia.
    rewrite np_ones_nth by exact Hi. ring.
Qed.

Lemma velocity_nth (d : list R) (i : nat) :
  (i < length d)%nat ->
  nth i (update (map (fun D => 9.65 - 10.3 * exp (- 0.6 * D)) d) 0 0.5) 0
  = velocity_spec i (nth i d 0).
Proof.
  intros H. unfold velocity_spec. destruct i as [|i].
  - rewrite update_nth_same by (rewrite length_map; exact H). reflexivity.
  - rewrite update_nth_other by discriminate.
    rewrite (nth_map_lt _ d (S i) 0) by exact H. reflexivity.
Qed.

Lemma calculate_RR_step_ok (self : DropSizeDistribution) (d rr : list R) (t : nat) :
  well_shaped self d -> (t < length (time self))%nat -> (t < length rr)%nat ->
  calculate_RR_step self rr t = Ok (update rr t (rain_rate_at self d t)).
Proof.
  intros (Hd & Hpos & Hs & Hn & Hrows) Ht Hrr.
  unfold calculate_RR_step. rewrite Hd. cbn [array_of bind].
  rewrite setitem_ok by (rewrite length_map; exact Hpos). cbn [bind].
  rewrite (getitem_ok (Nd self) t []) by lia. cbn [bind].
  assert (Hrow : length (nth t (Nd self) []) = length d).
  { rewrite Forall_forall in Hrows. apply Hrows. apply nth_In. lia. }
  destruct (mmultiply_four
              (update (map (fun D => 9.65 - 10.3 * exp (- 0.6 * D)) d) 0 0.5)
              (nth t (Nd self) []) (spread self) (map (fun D => D ^ 3) d)
              (length d)) as (p & Hp & Lp & Np);
    rewrite ?update_length, ?length_map; auto.
  rewrite Hp. cbn [bind]. rewrite setitem_ok by exact Hrr.
  do 2 f_equal. unfold rain_rate_at. f_equal.
  rewrite np_sum_bigsum, Lp. apply bigsum_ext. intros i Hi.
  rewrite Np by exact Hi. rewrite velocity_nth by exact Hi.
  rewrite (nth_map_lt _ d i 0) by exact Hi. reflexivity.
Qed.

Lemma calculate_RR_loop_ok (self : DropSizeDistribution) (d : list R) :
  well_shaped self d ->
  forall ts rr,
    Forall (fun t => (t < length (time self))%nat /\ (t < length rr)%nat) ts ->
    calculate_RR_loop self rr ts
    = Ok (fold_left (fun acc t => update acc t (rain_rate_at self d t)) ts rr).
Proof.
  intros W. induction ts as [|t ts IH]; intros rr H; [reflexivity|].
  inversion H as [|? ? [Ht Hr] Hts]; subst.
  cbn [calculate_RR_loop fold_left].
  rewrite (calculate_RR_step_ok self d rr t W Ht Hr). cbn [bind].
  apply IH. eapply Forall_impl; [|exact Hts].
  intros a [? ?]. rewrite update_length. split; assumption.
Qed.

Lemma fill_by_index (g : nat -> R) :
  forall m k a t,
    (k + m <= length a)%nat ->
    nth t (fold_left (fun acc t => update acc t (g t)) (seq k m) a) 0
    = if (Nat.leb k t && Nat.ltb t (k + m))%bool then g t else nth t a 0.
Proof.
  induction m as [|m IH]; intros k a t H.
  - simpl. destruct (Nat.leb_spec k t), (Nat.ltb_spec t (k + 0)); simpl;
      try reflexivity; lia.
  - cbn [seq fold_left]. rewrite IH by (rewrite update_length; lia).
    destruct (Nat.eq_dec t k) as [E | E].
    + subst t. rewrite update_nth_same by lia.
      destruct (Nat.leb_spec (S k) k), (Nat.leb_spec k k),
               (Nat.ltb_spec k (k + S m)); simpl; try reflexivity; lia.
    + rewrite update_nth_other by (intro; apply E; auto).
      destruct (Nat.leb_spec (S k) t), (Nat.ltb_spec t (S k + m)),
               (Nat.leb_spec k t), (Nat.ltb_spec t (k + S m));
        simpl; try reflexivity; lia.
Qed.

Lemma fill_length (g : nat -> R) :
  forall ts a, length (fold_left (fun acc t => update acc t (g t)) ts a) = length a.
Proof.
  induction ts as [|t ts IH]; intros a; simpl; [reflexivity|].
  rewrite IH. apply update_length.
Qed.

Lemma fill_all (g : nat -> R) (n : nat) :
  fold_left (fun acc t => update acc t (g t)) (seq 0 n) (np_zeros n)
  = map g (seq 0 n).
Proof.
  apply (nth_ext _ _ 0 0).
  - rewrite fill_length, length_map, length_seq. apply repeat_length.
  - intros t Ht. rewrite fill_length in Ht. unfold np_zeros in Ht.
    rewrite repeat_length in Ht.
    rewrite fill_by_index by (unfold np_zeros; rewrite repeat_length; lia).
    destruct (Nat.leb_spec 0 t), (Nat.ltb_spec t (0 + n)); simpl; try lia.
    rewrite (nth_map_lt g (seq 0 n) t 0%nat) by (rewrite length_seq; exact Ht).
    rewrite seq_nth by exact Ht. reflexivity.
Qed.

Lemma calculate_RR_correct (self : DropSizeDistribution) (d : list R) :
  well_shaped self d ->
  calculate_RR self = Ok (set_rain_rate self (Some (rain_rate_spec self d))).
Proof.
  intros W. unfold calculate_RR.
  rewrite (calculate_RR_loop_ok self d W).
  - cbn [bind]. rewrite fill_all. reflexivity.
  - apply Forall_forall. intros t Ht. apply in_seq in Ht.
    unfold np_zeros. rewrite repeat_length. lia.
Qed.

(** ** How the rain rate depends on one concentration *)

Lemma bigsum_S (n : nat) (f : nat -> R) : bigsum (S n) f = bigsum n f + f n.
Proof.
  unfold bigsum. rewrite seq_S, map_app, fold_right_app. simpl.
  generalize (map f (seq 0 n)). intros l.
  induction l as [|y l IH]; simpl; [lra|]. rewrite IH. lra.
Qed.

Lemma bigsum_single_change (f g : nat -> R) (i : nat) :
  forall n, (i < n)%nat ->
    (forall j, (j < n)%nat -> j <> i -> g j = f j) ->
    bigsum n g = bigsum n f + (g i - f i).
Proof.
  induction n as [|n IH]; intros Hi H; [lia|].
  rewrite !bigsum_S. destruct (Nat.eq_dec i n) as [E | E].
  - subst i. rewrite (bigsum_ext n g f) by (intros j Hj; apply H; lia). lra.
  - rewrite IH by (try lia; intros j Hj Hne; apply H; lia).
    rewrite (H n) by lia. lra.
Qed.

Lemma with_entry_length (nd : list (list R)) (t i : nat) (x : R) :
  length (with_entry nd t i x) = length nd.
Proof. apply update_length. Qed.

Lemma with_entry_rows (nd : list (list R)) (t i : nat) (x : R) (n : nat) :
  Forall (fun row => length row = n) nd ->
  Forall (fun row => length row = n) (with_entry nd t i x).
Proof.
  intros H. unfold with_entry.
  destruct (Nat.lt_ge_cases t (length nd)) as [Ht | Ht].
  - assert (Hrow : length (update (nth t nd []) i x) = n).
    { rewrite update_length. rewrite Forall_forall in H.
      apply H. apply nth_In. exact Ht. }
    generalize (update (nth t nd []) i x) Hrow. clear Hrow Ht.
    intros r Hr. revert t.
    induction H as [|row nd' Hrow Hnd IH]; intros [|t]; simpl;
      constructor; auto.
  - assert (E : forall (a : list (list R)) k v,
               (length a <= k)%nat -> update a k v = a).
    { induction a as [|y a IHa]; intros [|k] v Hk; simpl in *;
        try reflexivity; try lia.
      rewrite IHa by lia. reflexivity. }
    rewrite E by exact Ht. exact H.
Qed.

Lemma with_entry_entry (nd : list (list R)) (t i j : nat) (x : R) :
  (t < length nd)%nat -> (i < length (nth t nd []))%nat ->
  entry (with_entry nd t i x) t j = if Nat.eqb j i then x else entry nd t j.
Proof.
  intros Ht Hi. unfold entry, with_entry.
  rewrite update_nth_same by exact Ht.
  destruct (Nat.eqb_spec j i) as [E | E].
  - subst j. apply update_nth_same. exact Hi.
  - apply update_nth_other. auto.
Qed.

Lemma with_entry_well_shaped (self : DropSizeDistribution) (d : list R)
  (t i : nat) (x : R) :
  well_shaped self d ->
  well_shaped (set_Nd self (with_entry (Nd self) t i x)) d.
Proof.
  intros (Hd & Hpos & Hs & Hn & Hrows).
  unfold well_shaped. cbn [set_Nd diameter spread Nd time].
  rewrite with_entry_length.
  repeat split; auto using with_entry_rows.
Qed.

(** Replacing [Nd[t, i]] by [x] moves [R(t)] by the bin's weight times the
    change of concentration. *)
Lemma rain_rate_at_with_entry (self : DropSizeDistribution) (d : list R)
  (t i : nat) (x : R) :
  well_shaped self d -> (t < length (time self))%nat -> (i < length d)%nat ->
  rain_rate_at (set_Nd self (with_entry (Nd self) t i x)) d t
  = rain_rate_at self d t
    + 0.6 * PI * 1e-3 * (bin_weight self d i * (x - entry (Nd self) t i)).
Proof.
  intros (Hd & Hpos & Hs & Hn & Hrows) Ht Hi.
  assert (Hrow : length (nth t (Nd self) []) = length d).
  { rewrite Forall_forall in Hrows. apply Hrows. apply nth_In. lia. }
  unfold rain_rate_at. cbn [set_Nd Nd spread].
  rewrite (bigsum_single_change
             (fun j => velocity_spec j (nth j d 0) * entry (Nd self) t j
                       * nth j (spread self) 0 * nth j d 0 ^ 3) _ i (length d) Hi).
  2:{ intros j Hj Hne. rewrite with_entry_entry by lia.
      destruct (Nat.eqb_spec j i); [contradiction | reflexivity]. }
  rewrite with_entry_entry by lia. rewrite Nat.eqb_refl.
  unfold bin_weight. ring.
Qed.

Lemma rain_rate_spec_nth (self : DropSizeDistribution) (d : list R) (t : nat) :
  (t < length (time self))%nat ->
  nth t (rain_rate_spec self d) 0 = rain_rate_at self d t.
Proof.
  intros Ht. unfold rain_rate_spec.
  rewrite (nth_map_lt _ (seq 0 (length (time self))) t 0%nat)
    by (rewrite length_seq; exact Ht).
  rewrite seq_nth by exact Ht. reflexivity.
Qed.

Lemma rain_rate_scale_pos : 0 < 0.6 * PI * 1e-3.
Proof. pose proof PI_RGT_0. lra. Qed.

(** ** Boolean masks and the timesteps they keep *)

Lemma gt0_true (x : R) : gt0 x = true <-> 0 < x.
Proof.
  unfold gt0. destruct (Rlt_dec 0 x); split; intros; auto; discriminate.
Qed.

Lemma gt0_false (x : R) : gt0 x = false <-> x <= 0.
Proof.
  unfold gt0. destruct (Rlt_dec 0 x); split; intros; auto;
    try discriminate; lra.
Qed.

Lemma kept_In (p : nat -> bool) (n t : nat) :
  In t (kept p n) <-> (t < n)%nat /\ p t = true.
Proof.
  unfold kept. rewrite filter_In, in_seq. intuition lia.
Qed.

Lemma kept_ext (p q : nat -> bool) (n : nat) :
  (forall t, (t < n)%nat -> p t = q t) -> kept p n = kept q n.
Proof.
  intros H. unfold kept. apply filter_ext_in.
  intros t Ht. apply in_seq in Ht. apply H. lia.
Qed.

Lemma kept_S (p : nat -> bool) (n : nat) :
  kept p (S n)
  = (if p 0%nat then [0%nat] else []) ++ map S (kept (fun t => p (S t)) n).
Proof.
  unfold kept. cbn [seq filter]. rewrite <- seq_shift.
  assert (E : forall l, filter p (map S l) = map S (filter (fun t => p (S t)) l)).
  { induction l as [|y l IH]; simpl; [reflexivity|].
    rewrite IH. destruct (p (S y)); reflexivity. }
  rewrite E. destruct (p 0%nat); reflexivity.
Qed.

Lemma select_kept (a : list R) :
  forall mask, length a = length mask ->
    select a mask = at_steps a (kept (fun t => nth t mask false) (length a)).
Proof.
  induction a as [|x a IH]; intros [|m mask] H; simpl in H; try discriminate.
  - reflexivity.
  - cbn [length select]. rewrite kept_S. cbn [nth].
    unfold at_steps in *. rewrite map_app, map_map. cbn [nth].
    rewrite IH by lia. destruct m; reflexivity.
Qed.

Lemma select_gt0 (a rr : list R) :
  length a = length rr ->
  select a (np_gt0 rr) = at_steps a (kept (rr_positive rr) (length rr)).
Proof.
  intros H. unfold np_gt0.
  rewrite select_kept by (rewrite length_map; exact H).
  rewrite H. f_equal. apply kept_ext. intros t Ht.
  unfold rr_positive. apply (nth_map_lt gt0 rr t 0 false). exact Ht.
Qed.

Lemma select_kdp_rr (a kdp rr : list R) :
  length a = length kdp -> length kdp = length rr ->
  select a (zip_with andb (np_gt0 kdp) (np_gt0 rr))
  = at_steps a (kept (kdp_rr_positive kdp rr) (length kdp)).
Proof.
  intros Ha Hk. unfold np_gt0.
  assert (L : length (zip_with andb (map gt0 kdp) (map gt0 rr)) = length kdp).
  { rewrite zip_with_length; rewrite !length_map; auto. }
  rewrite select_kept by congruence.
  rewrite Ha. f_equal. apply kept_ext. intros t Ht.
  rewrite (zip_with_nth andb false false false)
    by (rewrite !length_map; auto).
  unfold kdp_rr_positive.
  rewrite (nth_map_lt gt0 kdp t 0 false) by exact Ht.
  rewrite (nth_map_lt gt0 rr t 0 false) by lia.
  reflexivity.
Qed.

Lemma np_logical_and_same (kdp rr : list R) :
  length kdp = length rr ->
  np_logical_and (np_gt0 kdp) (np_gt0 rr)
  = Ok (zip_with andb (np_gt0 kdp) (np_gt0 rr)).
Proof.
  intros H. unfold np_logical_and, broadcast2, np_gt0.
  rewrite !length_map, H, Nat.eqb_refl. reflexivity.
Qed.

Lemma mask_index_kdp_rr (a kdp rr : list R) :
  length a = length kdp -> length kdp = length rr ->
  mask_index a (zip_with andb (np_gt0 kdp) (np_gt0 rr))
  = Ok (at_steps a (kept (kdp_rr_positive kdp rr) (length kdp))).
Proof.
  intros Ha Hk. unfold mask_index.
  rewrite zip_with_length by (unfold np_gt0; rewrite !length_map; exact Hk).
  unfold np_gt0 at 1. rewrite length_map, Ha, Nat.eqb_refl.
  rewrite select_kdp_rr by assumption. reflexivity.
Qed.

Lemma mask_index_gt0 (a rr : list R) :
  length a = length rr ->
  mask_index a (np_gt0 rr) = Ok (at_steps a (kept (rr_positive rr) (length rr))).
Proof.
  intros H. unfold mask_index, np_gt0 at 1.
  rewrite length_map, H, Nat.eqb_refl.
  rewrite select_gt0 by exact H. reflexivity.
Qed.

(** ** The rainfall estimator *)

Lemma dsd_scenario_well_shaped : well_shaped dsd_scenario [0.5; 1; 1.5].
Proof.
  unfold well_shaped, dsd_scenario. check_shape.
Qed.

Lemma dsd_drizzle_well_shaped : well_shaped dsd_drizzle [0.01; 0.05].
Proof.
  unfold well_shaped, dsd_drizzle. check_shape.
Qed.



(** The concrete scenario of the specification: two drops per unit volume
    in the 1.0 mm bin. *)
Example rain_rate_scenario :
  calculate_RR dsd_scenario
  = Ok (set_rain_rate dsd_scenario
          (Some [0.6 * PI * 1e-3 * ((9.65 - 10.3 * exp (- 0.6)) * 2 * 0.5)])).
Proof.
  rewrite (calculate_RR_correct dsd_scenario [0.5; 1; 1.5])
    by exact dsd_scenario_well_shaped.
  do 2 f_equal. unfold rain_rate_spec, rain_rate_at, bigsum, entry, velocity_spec.
  cbn. do 2 f_equal. replace (- 0.6 * 1) with (- 0.6) by lra. ring.
Qed.

(** The model velocity is not negative from 0.12 mm upwards. *)
Lemma velocity_nonneg (D : R) :
  0.12 <= D -> 0 <= 9.65 - 10.3 * exp (- 0.6 * D).
Proof.
  intros H.
  pose proof (exp_ineq1_le (0.6 * D)) as Hle.
  pose proof (exp_pos (- 0.6 * D)) as Hp.
  assert (Hinv : exp (- 0.6 * D) * exp (0.6 * D) = 1).
  { rewrite <- exp_plus. replace (- 0.6 * D + 0.6 * D) with 0 by lra.
    apply exp_0. }
  assert (Hb : exp (- 0.6 * D) * 1.072 <= 1) by nra.
  lra.
Qed.

Lemma bin_weight_nonneg (self : DropSizeDistribution) (d : list R) (i : nat) :
  0.12 <= nth i d 0 -> 0 <= nth i (spread self) 0 ->
  0 <= bin_weight self d i.
Proof.
  intros Hd Hs. unfold bin_weight, velocity_spec.
  assert (Hv : 0 <= (if Nat.eqb i 0 then 0.5
                     else 9.65 - 10.3 * exp (- 0.6 * nth i d 0))).
  { destruct (Nat.eqb i 0); [lra | apply velocity_nonneg; exact Hd]. }
  assert (Hc : 0 <= nth i d 0 ^ 3) by (apply pow_le; lra).
  apply Rmult_le_pos; [apply Rmult_le_pos|]; assumption.
Qed.

(** C9, as amended.  For a well-shaped DSD, a timestep [t] and a bin [i]
    whose weight [v_i * spread[i] * diameter[i]^3] is not negative, raising
    the concentration [Nd[t,i]] with every other entry fixed does not lower
    the rain rate that [calculate_RR] produces at [t]. *)
Theorem calculate_RR_monotone (self : DropSizeDistribution) (d : list R)
  (t i : nat) (x : R) :
  well_shaped self d ->
  (t < length (time self))%nat -> (i < length d)%nat ->
  0 <= bin_weight self d i ->
  entry (Nd self) t i <= x ->
  exists rr rr',
    calculate_RR self = Ok (set_rain_rate self (Some rr)) /\
    calculate_RR (set_Nd self (with_entry (Nd self) t i x))
    = Ok (set_rain_rate (set_Nd self (with_entry (Nd self) t i x)) (Some rr')) /\
    nth t rr 0 <= nth t rr' 0.
Proof.
  intros W Ht Hi Hw Hx.
  exists (rain_rate_spec self d),
         (rain_rate_spec (set_Nd self (with_entry (Nd self) t i x)) d).
  split; [|split].
  - apply calculate_RR_correct. exact W.
  - apply calculate_RR_correct. apply with_entry_well_shaped. exact W.
  - rewrite !rain_rate_spec_nth by exact Ht.
    rewrite rain_rate_at_with_entry by assumption.
    pose proof rain_rate_scale_pos as Hc.
    assert (0 <= bin_weight self d i * (x - entry (Nd self) t i)) by nra.
    nra.
Qed.

Lemma calculate_RR_monotone_witness :
  exists rr rr',
    calculate_RR dsd_scenario = Ok (set_rain_rate dsd_scenario (Some rr)) /\
    calculate_RR (set_Nd dsd_scenario (with_entry (Nd dsd_scenario) 0 1 5))
    = Ok (set_rain_rate
            (set_Nd dsd_scenario (with_entry (Nd dsd_scenario) 0 1 5))
            (Some rr')) /\
    nth 0 rr 0 <= nth 0 rr' 0.
Proof.
  apply (calculate_RR_monotone dsd_scenario [0.5; 1; 1.5] 0 1 5).
  - unfold well_shaped, dsd_scenario. check_shape.
  - cbn. apply Nat.lt_0_succ.
  - cbn. apply -> Nat.succ_lt_mono. apply Nat.lt_0_succ.
  - unfold bin_weight, velocity_spec. cbn.
    pose proof (exp_ineq1_le (0.6 * 1)) as He.
    assert (Hinv : exp (- 0.6 * 1) * exp (0.6 * 1) = 1).
    { rewrite <- exp_plus. replace (- 0.6 * 1 + 0.6 * 1) with 0 by lra.
      apply exp_0. }
    pose proof (exp_pos (- 0.6 * 1)) as Hp.
    assert (exp (- 0.6 * 1) <= 0.7) by nra.
    nra.
  - unfold entry. cbn. lra.
Defined.

(** C9, as stated, fails: the second of two bins below a tenth of a
    millimetre has a negative model velocity, so adding drops to it lowers
    the rain rate. *)
Lemma calculate_RR_monotone_counterexample :
  exists rr rr',
    calculate_RR dsd_drizzle = Ok (set_rain_rate dsd_drizzle (Some rr)) /\
    calculate_RR (set_Nd dsd_drizzle (with_entry (Nd dsd_drizzle) 0 1 1))
    = Ok (set_rain_rate
            (set_Nd dsd_drizzle (with_entry (Nd dsd_drizzle) 0 1 1))
            (Some rr')) /\
    entry (Nd dsd_drizzle) 0 1 < 1 /\
    nth 0 rr' 0 < nth 0 rr 0.
Proof.
  exists (rain_rate_spec dsd_drizzle [0.01; 0.05]),
         (rain_rate_spec
            (set_Nd dsd_drizzle (with_entry (Nd dsd_drizzle) 0 1 1))
            [0.01; 0.05]).
  split; [|split; [|split]].
  - apply calculate_RR_correct. exact dsd_drizzle_well_shaped.
  - apply calculate_RR_correct. apply with_entry_well_shaped.
    exact dsd_drizzle_well_shaped.
  - unfold entry. cbn. lra.
  - rewrite !rain_rate_spec_nth by (cbn; lia).
    rewrite rain_rate_at_with_entry
      by (try exact dsd_drizzle_well_shaped; cbn; lia).
    pose proof rain_rate_scale_pos as Hc.
    assert (Hw : bin_weight dsd_drizzle [0.01; 0.05] 1 < 0).
    { unfold bin_weight, velocity_spec. cbn.
      pose proof (exp_ineq1_le (- 0.6 * 0.05)) as He. nra. }
    assert (He : entry (Nd dsd_drizzle) 0 1 = 0) by reflexivity.
    rewrite He. nra.
Qed.

(** ** The moment calculator *)

(** C2.  [_calc_mth_moment] never returns the moment series: it reads
    [np.time], which numpy does not have, so the call raises for every DSD
    and every exponent; on the scenario of the specification it raises
    [AttributeError] where the moment of order [0] is the series [[1]]. *)
Theorem calc_mth_moment_raises :
  (forall self m, exists e, _calc_mth_moment self m = Raise e) /\
  _calc_mth_moment dsd_scenario 0 = Raise AttributeError /\
  moment_spec dsd_scenario [0.5; 1; 1.5] 0 = [1].
Proof.
  split; [|split].
  - intros self m. unfold _calc_mth_moment.
    destruct (bin_edges self) as [be|]; cbn; eauto.
  - reflexivity.
  - unfold moment_spec, bigsum, entry, np_power, dsd_scenario. cbn.
    rewrite !Rpower_O by lra. f_equal. lra.
Qed.

(** ** Bin geometry *)

Lemma calculate_RR_loop_bin_edges (self : DropSizeDistribution)
  (be : option (list R)) :
  forall ts rr,
    calculate_RR_loop (set_bin_edges self be) rr ts
    = calculate_RR_loop self rr ts.
Proof.
  induction ts as [|t ts IH]; intros rr; [reflexivity|].
  cbn [calculate_RR_loop].
  change (calculate_RR_step (set_bin_edges self be) rr t)
    with (calculate_RR_step self rr t).
  destruct (calculate_RR_step self rr t); cbn [bind]; auto.
Qed.

(** C7, as amended.  Bin geometry is not validated: the constructor returns,
    for every input, an object that holds its arguments as given, and
    [calculate_RR] never reads [bin_edges], so its outcome is the same
    whatever the edges are. *)
Theorem bin_geometry_unchecked :
  (forall tm nd sp rr v z np be dm,
     exists self,
       __init__ tm nd sp rr v z np be dm = Ok self /\
       Nd self = nd /\ spread self = sp /\
       bin_edges self = be /\ diameter self = dm) /\
  (forall self be,
     calculate_RR (set_bin_edges self be)
     = (r <- calculate_RR self ;; Ok (set_bin_edges r be))).
Proof.
  split.
  - intros. eexists. split; [reflexivity|]. cbn. auto.
  - intros self be. unfold calculate_RR.
    cbn [set_bin_edges time]. rewrite calculate_RR_loop_bin_edges.
    destruct (calculate_RR_loop self _ _); reflexivity.
Qed.

(** C7, as stated, fails: edges that decrease, two bin centres, one width
    and three concentration columns are accepted by the constructor, and
    [calculate_RR] runs to its end on decreasing edges. *)
Lemma bin_geometry_unchecked_counterexample :
  __init__ [0] [[1; 2; 3]] [0.5] None None None None (Some [2; 1])
           (Some [1; 2])
  = Ok (mkDSD [0] [[1; 2; 3]] [0.5] None None None None (Some [2; 1])
              (Some [1; 2]) (Some [0]) [0] [0] [0]) /\
  exists rr,
    calculate_RR (set_bin_edges dsd_scenario (Some [3; 2; 2; 1]))
    = Ok (set_rain_rate (set_bin_edges dsd_scenario (Some [3; 2; 2; 1]))
                        (Some rr)).
Proof.
  split; [reflexivity|].
  exists (rain_rate_spec dsd_scenario [0.5; 1; 1.5]).
  apply (calculate_RR_correct
           (set_bin_edges dsd_scenario (Some [3; 2; 2; 1])) [0.5; 1; 1.5]).
  exact dsd_scenario_well_shaped.
Qed.

(** ** The relationship fitter *)

Lemma fit_steps_In (self : DropSizeDistribution) (rr : list R) (t : nat) :
  In t (fit_steps self rr) <->
  (t < length rr)%nat /\ 0 < nth t (Kdp self) 0 /\ 0 < nth t rr 0.
Proof.
  unfold fit_steps. rewrite kept_In. unfold kdp_rr_positive.
  rewrite andb_true_iff, !gt0_true. reflexivity.
Qed.

Lemma fit_outcome_not_none (r : result fit) : fit_outcome r <> Ok None.
Proof. destruct r; discriminate. Qed.

Section Fitter.

Variable expfit : expfit_t.
Variable curve_fit : curve_fit_t.

Lemma calc_R_kdp_relationship_steps (self : DropSizeDistribution)
  (rr : list R) :
  rain_rate self = Some rr -> length (Kdp self) = length rr ->
  calc_R_kdp_relationship expfit self
  = fit_outcome (expfit (at_steps (Kdp self) (fit_steps self rr))
                        (at_steps rr (fit_steps self rr))).
Proof.
  intros Hrr Hk. unfold calc_R_kdp_relationship, fit_steps.
  rewrite Hrr. cbn [array_of bind].
  rewrite np_logical_and_same by exact Hk. cbn [bind].
  rewrite !mask_index_kdp_rr by auto. cbn [bind].
  rewrite Hk. reflexivity.
Qed.

Lemma calc_R_Zh_relationship_steps (self : DropSizeDistribution)
  (rr zh : list R) :
  rain_rate self = Some rr -> Zh self = Some zh -> length zh = length rr ->
  calc_R_Zh_relationship expfit self
  = fit_outcome
      (expfit (map (fun v => Rpower 10 (0.1 * v))
                   (at_steps zh (kept (rr_positive rr) (length rr))))
              (at_steps rr (kept (rr_positive rr) (length rr)))).
Proof.
  intros Hrr Hzh Hl. unfold calc_R_Zh_relationship.
  rewrite Hrr, Hzh. cbn [array_of bind].
  rewrite !mask_index_gt0 by auto. cbn [bind]. reflexivity.
Qed.

Lemma moment_series_length (self : DropSizeDistribution) (zh : list R)
  (name : string) (ms : list string) (series : list R) :
  length series = length zh ->
  length (if contains name ms then series else np_ones (length zh))
  = length zh.
Proof.
  intros H. destruct (contains name ms); [exact H|].
  unfold np_ones. apply repeat_length.
Qed.

Lemma calc_rainfall_relationship_three (self : DropSizeDistribution)
  (ms : list string) (rr zh : list R) :
  radar_ready self rr zh -> length ms = 3%nat ->
  calc_rainfall_relationship curve_fit self (Some ms)
  = ([], fit_outcome (curve_fit fit_func
                        (fit_xdata self ms zh (fit_steps self rr))
                        [1; 1; 1; 1])).
Proof.
  intros (Hrr & Hzh & Hk & Hz & Hd) Hms.
  unfold calc_rainfall_relationship. rewrite Hrr, Hzh.
  rewrite np_logical_and_same by exact Hk.
  rewrite Hms. cbn [Nat.eqb lift py_bind].
  rewrite !mask_index_kdp_rr;
    try exact Hk;
    try (rewrite (moment_series_length self); congruence).
  cbn [app]. unfold fit_xdata, fit_steps. rewrite Hk.
  destruct (curve_fit _ _ _); reflexivity.
Qed.

Lemma calc_rainfall_relationship_fewer (self : DropSizeDistribution)
  (ms : list string) (rr zh : list R) :
  radar_ready self rr zh -> (length ms < 3)%nat ->
  calc_rainfall_relationship curve_fit self (Some ms)
  = (["Have not implemented 2 yet"%string], Ok None).
Proof.
  intros (Hrr & Hzh & Hk & Hz & Hd) Hms.
  unfold calc_rainfall_relationship. rewrite Hrr, Hzh.
  rewrite np_logical_and_same by exact Hk.
  destruct (Nat.eqb_spec (length ms) 3) as [E | E]; [lia|].
  destruct (Nat.ltb_spec (length ms) 3) as [L | L]; [|lia].
  reflexivity.
Qed.

Lemma calc_rainfall_relationship_more (self : DropSizeDistribution)
  (ms : list string) (rr zh : list R) :
  radar_ready self rr zh -> (3 < length ms)%nat ->
  calc_rainfall_relationship curve_fit self (Some ms) = ([], Ok None).
Proof.
  intros (Hrr & Hzh & Hk & Hz & Hd) Hms.
  unfold calc_rainfall_relationship. rewrite Hrr, Hzh.
  rewrite np_logical_and_same by exact Hk.
  destruct (Nat.eqb_spec (length ms) 3) as [E | E]; [lia|].
  destruct (Nat.ltb_spec (length ms) 3) as [L | L]; [lia|].
  reflexivity.
Qed.

End Fitter.

Lemma dsd_radar_ready : radar_ready dsd_radar [1; 3; 0] [10; 20; 30].
Proof. unfold radar_ready, dsd_radar. check_shape. Qed.

(** C3.  With three moments selected and the series present,
    [calc_rainfall_relationship] calls [curve_fit] with the constant target
    [(1, 1, 1, 1)]; the rain rate enters only through the timesteps the
    positivity filter keeps, so another rain-rate series that keeps the same
    timesteps gives the same outcome. *)
Theorem three_moment_fit_target (curve_fit : curve_fit_t)
  (self : DropSizeDistribution) (ms : list string) (rr zh : list R) :
  radar_ready self rr zh -> length ms = 3%nat ->
  calc_rainfall_relationship curve_fit self (Some ms)
  = ([], fit_outcome (curve_fit fit_func
                        (fit_xdata self ms zh (fit_steps self rr))
                        [1; 1; 1; 1])) /\
  forall rr', length rr' = length rr ->
    fit_steps self rr' = fit_steps self rr ->
    calc_rainfall_relationship curve_fit (set_rain_rate self (Some rr'))
                               (Some ms)
    = calc_rainfall_relationship curve_fit self (Some ms).
Proof.
  intros Hready Hms. split.
  - apply calc_rainfall_relationship_three; assumption.
  - intros rr' Hlen Hsteps.
    rewrite (calc_rainfall_relationship_three curve_fit self ms rr zh)
      by assumption.
    rewrite (calc_rainfall_relationship_three curve_fit
               (set_rain_rate self (Some rr')) ms rr' zh).
    + change (fit_steps (set_rain_rate self (Some rr')) rr')
        with (fit_steps self rr').
      rewrite Hsteps. reflexivity.
    + destruct Hready as (Hrr & Hzh & Hk & Hz & Hd).
      unfold radar_ready. cbn [set_rain_rate rain_rate Zh Kdp Zdr].
      repeat split; congruence.
    + exact Hms.
Qed.

Lemma three_moment_fit_target_witness :
  calc_rainfall_relationship curve_fit_echo dsd_radar
    (Some ["reflectivity"; "differential_reflectivity";
           "specific_differential_phase"]%string)
  = ([], fit_outcome (curve_fit_echo fit_func
                        (fit_xdata dsd_radar
                           ["reflectivity"; "differential_reflectivity";
                            "specific_differential_phase"]%string
                           [10; 20; 30] (fit_steps dsd_radar [1; 3; 0]))
                        [1; 1; 1; 1])) /\
  forall rr', length rr' = length [1; 3; 0] ->
    fit_steps dsd_radar rr' = fit_steps dsd_radar [1; 3; 0] ->
    calc_rainfall_relationship curve_fit_echo
      (set_rain_rate dsd_radar (Some rr'))
      (Some ["reflectivity"; "differential_reflectivity";
             "specific_differential_phase"]%string)
    = calc_rainfall_relationship curve_fit_echo dsd_radar
        (Some ["reflectivity"; "differential_reflectivity";
               "specific_differential_phase"]%string).
Proof.
  apply (three_moment_fit_target curve_fit_echo dsd_radar
           ["reflectivity"; "differential_reflectivity";
            "specific_differential_phase"]%string [1; 3; 0] [10; 20; 30]).
  - unfold radar_ready, dsd_radar. check_shape.
  - reflexivity.
Defined.

(** C4, as amended.  With the series present, [calc_rainfall_relationship]
    fits only a selection of exactly three moments, returning what the
    regression returns; a selection of fewer than three (two, and one as
    well) is reported as not implemented and no result is returned; a longer
    selection returns no result either. *)
Theorem three_moments_only (curve_fit : curve_fit_t)
  (self : DropSizeDistribution) (ms : list string) (rr zh : list R) :
  radar_ready self rr zh ->
  calc_rainfall_relationship curve_fit self (Some ms)
  = if Nat.eqb (length ms) 3
    then ([], fit_outcome (curve_fit fit_func
                             (fit_xdata self ms zh (fit_steps self rr))
                             [1; 1; 1; 1]))
    else if Nat.ltb (length ms) 3
    then (["Have not implemented 2 yet"%string], Ok None)
    else ([], Ok None).
Proof.
  intros Hready.
  destruct (Nat.eqb_spec (length ms) 3) as [E | E].
  - apply calc_rainfall_relationship_three; assumption.
  - destruct (Nat.ltb_spec (length ms) 3) as [L | L].
    + apply (calc_rainfall_relationship_fewer curve_fit self ms rr zh);
        assumption.
    + apply (calc_rainfall_relationship_more curve_fit self ms rr zh);
        [assumption | lia].
Qed.

Lemma three_moments_only_witness :
  calc_rainfall_relationship curve_fit_echo dsd_radar
    (Some ["reflectivity"; "differential_reflectivity"]%string)
  = if Nat.eqb (length ["reflectivity"; "differential_reflectivity"]%string) 3
    then ([], fit_outcome (curve_fit_echo fit_func
                             (fit_xdata dsd_radar
                                ["reflectivity";
                                 "differential_reflectivity"]%string
                                [10; 20; 30] (fit_steps dsd_radar [1; 3; 0]))
                             [1; 1; 1; 1]))
    else if Nat.ltb
              (length ["reflectivity"; "differential_reflectivity"]%string) 3
    then (["Have not implemented 2 yet"%string], Ok None)
    else ([], Ok None).
Proof.
  apply (three_moments_only curve_fit_echo dsd_radar
           ["reflectivity"; "differential_reflectivity"]%string
           [1; 3; 0] [10; 20; 30]).
  unfold radar_ready, dsd_radar. check_shape.
Defined.

(** C4, as stated, fails: a selection of one moment is not fitted; the
    call prints the not-implemented line and returns no result. *)
Lemma one_moment_counterexample :
  calc_rainfall_relationship curve_fit_echo dsd_radar
    (Some ["reflectivity"%string])
  = (["Have not implemented 2 yet"%string], Ok None).
Proof.
  apply (calc_rainfall_relationship_fewer curve_fit_echo dsd_radar
           ["reflectivity"%string] [1; 3; 0] [10; 20; 30]).
  - exact dsd_radar_ready.
  - cbn. lia.
Qed.

(** C5.  [calc_R_kdp_relationship] hands to [expfit] the values of [Kdp]
    and of the rain rate at exactly the timesteps where both are positive;
    [calc_R_Zh_relationship] hands it [10^(0.1*Zh)] and the rain rate at
    exactly the timesteps where the rain rate is positive. *)
Theorem positivity_filters (expfit : expfit_t) (self : DropSizeDistribution)
  (rr zh : list R) :
  rain_rate self = Some rr -> Zh self = Some zh ->
  length (Kdp self) = length rr -> length zh = length rr ->
  calc_R_kdp_relationship expfit self
  = fit_outcome (expfit (at_steps (Kdp self) (fit_steps self rr))
                        (at_steps rr (fit_steps self rr))) /\
  calc_R_Zh_relationship expfit self
  = fit_outcome
      (expfit (map (fun v => Rpower 10 (0.1 * v))
                   (at_steps zh (kept (rr_positive rr) (length rr))))
              (at_steps rr (kept (rr_positive rr) (length rr)))) /\
  (forall t, In t (fit_steps self rr) <->
             (t < length rr)%nat /\ 0 < nth t (Kdp self) 0 /\ 0 < nth t rr 0) /\
  (forall t, In t (kept (rr_positive rr) (length rr)) <->
             (t < length rr)%nat /\ 0 < nth t rr 0).
Proof.
  intros Hrr Hzh Hk Hz. split; [|split; [|split]].
  - apply calc_R_kdp_relationship_steps; assumption.
  - apply calc_R_Zh_relationship_steps; assumption.
  - intros t. apply fit_steps_In.
  - intros t. rewrite kept_In. unfold rr_positive. rewrite gt0_true.
    reflexivity.
Qed.

Lemma positivity_filters_witness :
  calc_R_kdp_relationship expfit_echo dsd_radar
  = fit_outcome (expfit_echo
                   (at_steps (Kdp dsd_radar) (fit_steps dsd_radar [1; 3; 0]))
                   (at_steps [1; 3; 0] (fit_steps dsd_radar [1; 3; 0]))) /\
  calc_R_Zh_relationship expfit_echo dsd_radar
  = fit_outcome
      (expfit_echo
         (map (fun v => Rpower 10 (0.1 * v))
              (at_steps [10; 20; 30]
                        (kept (rr_positive [1; 3; 0]) (length [1; 3; 0]))))
         (at_steps [1; 3; 0]
                   (kept (rr_positive [1; 3; 0]) (length [1; 3; 0])))) /\
  (forall t, In t (fit_steps dsd_radar [1; 3; 0]) <->
             (t < length [1; 3; 0])%nat /\
             0 < nth t (Kdp dsd_radar) 0 /\ 0 < nth t [1; 3; 0] 0) /\
  (forall t, In t (kept (rr_positive [1; 3; 0]) (length [1; 3; 0])) <->
             (t < length [1; 3; 0])%nat /\ 0 < nth t [1; 3; 0] 0).
Proof.
  apply (positivity_filters expfit_echo dsd_radar [1; 3; 0] [10; 20; 30]);
    reflexivity.
Defined.

(** The filter at work on the sample: only timestep [0] is kept. *)
Example fit_steps_dsd_radar : fit_steps dsd_radar [1; 3; 0] = [0%nat].
Proof.
  unfold fit_steps, kept, kdp_rr_positive, dsd_radar. decide_gt0.
  reflexivity.
Qed.

(** C6, as amended.  When the positivity filter keeps no timestep,
    [calc_R_kdp_relationship] makes no check of its own: it calls [expfit]
    on two empty sequences and returns the pair that call returns or raises
    what it raises; it never returns without a result. *)
Theorem empty_filter_unchecked (expfit : expfit_t)
  (self : DropSizeDistribution) (rr : list R) :
  rain_rate self = Some rr -> length (Kdp self) = length rr ->
  fit_steps self rr = [] ->
  calc_R_kdp_relationship expfit self = fit_outcome (expfit [] []) /\
  calc_R_kdp_relationship expfit self <> Ok None.
Proof.
  intros Hrr Hk Hnone.
  rewrite (calc_R_kdp_relationship_steps expfit self rr Hrr Hk).
  rewrite Hnone. split; [reflexivity | apply fit_outcome_not_none].
Qed.

Lemma fit_steps_dsd_dry : fit_steps dsd_dry [1; 0] = [].
Proof.
  unfold fit_steps, kept, kdp_rr_positive, dsd_dry. decide_gt0.
  reflexivity.
Qed.

Lemma empty_filter_unchecked_witness :
  calc_R_kdp_relationship expfit_echo dsd_dry
  = fit_outcome (expfit_echo [] []) /\
  calc_R_kdp_relationship expfit_echo dsd_dry <> Ok None.
Proof.
  apply (empty_filter_unchecked expfit_echo dsd_dry [1; 0]).
  - reflexivity.
  - reflexivity.
  - exact fit_steps_dsd_dry.
Defined.

(** C6, as stated, fails: on a DSD whose filter keeps no timestep, no
    regression routine makes [calc_R_kdp_relationship] return without a
    result; the call returns a pair or raises. *)
Lemma empty_filter_counterexample :
  fit_steps dsd_dry [1; 0] = [] /\
  ~ (exists expfit : expfit_t,
        calc_R_kdp_relationship expfit dsd_dry = Ok None).
Proof.
  split; [exact fit_steps_dsd_dry|].
  intros [expfit H].
  rewrite (calc_R_kdp_relationship_steps expfit dsd_dry [1; 0]) in H
    by reflexivity.
  exact (fit_outcome_not_none _ H).
Qed.



(** An object as the constructor leaves it has its radar series at zero,
    not [None]: the test for missing radar variables does not fire, the
    filter keeps no timestep and a three-moment call goes on to the
    regression with empty series. *)
Lemma fit_steps_zero_Kdp (self : DropSizeDistribution) (rr : list R) :
  Kdp self = np_zeros (length rr) -> fit_steps self rr = [].
Proof.
  intros H. unfold fit_steps, kept. rewrite H.
  generalize (seq 0 (length rr)). intros l.
  induction l as [|t l IH]; [reflexivity|]. cbn [filter].
  unfold kdp_rr_positive at 1.
  replace (gt0 (nth t (np_zeros (length rr)) 0)) with false;
    [exact IH|].
  symmetry. apply gt0_false. unfold np_zeros.
  rewrite nth_repeat. lra.
Qed.

Remark radar_series_never_computed (curve_fit : curve_fit_t)
  (tm : list R) (nd : list (list R)) (sp rr : list R) (ms : list string) :
  length rr = length tm -> length ms = 3%nat ->
  exists self,
    __init__ tm nd sp (Some rr) None None None None None = Ok self /\
    calc_rainfall_relationship curve_fit self (Some ms)
    = ([], fit_outcome (curve_fit fit_func ([], [], []) [1; 1; 1; 1])).
Proof.
  intros Hlen Hms. eexists. split; [reflexivity|].
  set (self := mkDSD tm nd sp (Some rr) None None None None None
                     (Some (np_zeros (length tm))) (np_zeros (length tm))
                     (np_zeros (length tm)) (np_zeros (length tm))).
  assert (Hready : radar_ready self rr (np_zeros (length tm))).
  { unfold radar_ready, self, np_zeros. cbn.
    rewrite !repeat_length. repeat split; congruence. }
  rewrite (calc_rainfall_relationship_three curve_fit self ms rr _ Hready Hms).
  rewrite fit_steps_zero_Kdp by (unfold self; cbn; congruence).
  reflexivity.
Qed.

(** C10.  Whatever three moments are selected, with or without
    [specific_differential_phase] among them, the three series handed to
    [curve_fit] are restricted to the timesteps with [Kdp > 0] and
    [rain_rate > 0]; a timestep with [Kdp <= 0] never enters the fit. *)
Theorem fit_data_filtered_by_Kdp (curve_fit : curve_fit_t)
  (self : DropSizeDistribution) (ms : list string) (rr zh : list R) :
  radar_ready self rr zh -> length ms = 3%nat ->
  calc_rainfall_relationship curve_fit self (Some ms)
  = ([], fit_outcome (curve_fit fit_func
                        (fit_xdata self ms zh (fit_steps self rr))
                        [1; 1; 1; 1])) /\
  (forall t, In t (fit_steps self rr) <->
             (t < length rr)%nat /\ 0 < nth t (Kdp self) 0 /\ 0 < nth t rr 0) /\
  (forall t, nth t (Kdp self) 0 <= 0 -> ~ In t (fit_steps self rr)).
Proof.
  intros Hready Hms. split; [|split].
  - apply calc_rainfall_relationship_three; assumption.
  - intros t. apply fit_steps_In.
  - intros t Hle Hin. apply fit_steps_In in Hin. lra.
Qed.

Lemma fit_data_filtered_by_Kdp_witness :
  calc_rainfall_relationship curve_fit_echo dsd_radar
    (Some ["reflectivity"; "differential_reflectivity"; "reflectivity"]%string)
  = ([], fit_outcome
           (curve_fit_echo fit_func
              (fit_xdata dsd_radar
                 ["reflectivity"; "differential_reflectivity";
                  "reflectivity"]%string
                 [10; 20; 30] (fit_steps dsd_radar [1; 3; 0]))
              [1; 1; 1; 1])) /\
  (forall t, In t (fit_steps dsd_radar [1; 3; 0]) <->
             (t < length [1; 3; 0])%nat /\
             0 < nth t (Kdp dsd_radar) 0 /\ 0 < nth t [1; 3; 0] 0) /\
  (forall t, nth t (Kdp dsd_radar) 0 <= 0 ->
             ~ In t (fit_steps dsd_radar [1; 3; 0])).
Proof.
  apply (fit_data_filtered_by_Kdp curve_fit_echo dsd_radar
           ["reflectivity"; "differential_reflectivity"; "reflectivity"]%string
           [1; 3; 0] [10; 20; 30]).
  - unfold radar_ready, dsd_radar. check_shape.
  - reflexivity.
Defined.

(** On the sample, with the phase not selected, the third series is the
    all-ones series restricted to the one timestep that passes the filter on
    [Kdp] and the rain rate. *)
Example fit_without_phase :
  calc_rainfall_relationship curve_fit_echo dsd_radar
    (Some ["reflectivity"; "differential_reflectivity"; "reflectivity"]%string)
  = ([], Ok (Some ([1; 1; 1; 1], [[10]; [1]; [1]]))).
Proof.
  rewrite (calc_rainfall_relationship_three curve_fit_echo dsd_radar
             ["reflectivity"; "differential_reflectivity";
              "reflectivity"]%string
             [1; 3; 0] [10; 20; 30] dsd_radar_ready eq_refl).
  rewrite fit_steps_dsd_radar. reflexivity.
Qed.

(** ** [__get_last_nonzero] finds the last entry that is not zero *)

Lemma is_nonzero_true (x : R) : is_nonzero x = true <-> x <> 0.
Proof.
  unfold is_nonzero. destruct (Req_dec_T x 0); split; intros; auto;
    try discriminate; contradiction.
Qed.

Lemma np_nonzero_In (N : list R) (i : nat) :
  In i (np_nonzero N) <-> (i < length N)%nat /\ nth i N 0 <> 0.
Proof.
  unfold np_nonzero. rewrite filter_In, in_seq, is_nonzero_true.
  intuition lia.
Qed.

Lemma fold_left_max_bounds (a : list nat) :
  forall i, (i <= fold_left Nat.max a i)%nat /\
            (forall x, In x a -> (x <= fold_left Nat.max a i)%nat) /\
            (fold_left Nat.max a i = i \/ In (fold_left Nat.max a i) a).
Proof.
  induction a as [|y a IH]; intros i; cbn [fold_left].
  - repeat split; auto. intros x [].
  - destruct (IH (Nat.max i y)) as (Hge & Hall & Hin).
    split; [lia|]. split.
    + intros x [E | Hx]; [subst x; lia | auto].
    + destruct Hin as [E | Hin]; [|right; right; exact Hin].
      rewrite E. destruct (Nat.max_spec i y) as [[_ M] | [_ M]];
        rewrite M; [right; left; reflexivity | left; reflexivity].
Qed.

Lemma np_max_spec (a : list nat) (m : nat) :
  np_max a = Ok m <-> In m a /\ forall x, In x a -> (x <= m)%nat.
Proof.
  destruct a as [|i a]; cbn [np_max].
  - split; [discriminate | intros [[] _]].
  - destruct (fold_left_max_bounds a i) as (Hge & Hall & Hin). split.
    + intros E. injection E as E. subst m. split.
      * destruct Hin as [E | Hin]; [left; auto | right; exact Hin].
      * intros x [E | Hx]; [subst x; exact Hge | auto].
    + intros [Hm Hmax]. f_equal. apply Nat.le_antisymm.
      * apply Hmax. destruct Hin as [E | Hin];
          [rewrite E; left; reflexivity | right; exact Hin].
      * destruct Hm as [E | Hm]; [subst m; exact Hge | auto].
Qed.

(** X1.  [__get_last_nonzero] returns [i] exactly when entry [i] is the
    last one that is not zero; it raises [ValueError] exactly when every
    entry is zero (an empty array included), and raises nothing else. *)
Theorem get_last_nonzero_spec (N : list R) :
  (forall i, __get_last_nonzero N = Ok i <->
             (i < length N)%nat /\ nth i N 0 <> 0 /\
             forall j, (i < j)%nat -> nth j N 0 = 0) /\
  (__get_last_nonzero N = Raise ValueError <-> Forall (fun x => x = 0) N) /\
  (forall e, __get_last_nonzero N = Raise e -> e = ValueError).
Proof.
  unfold __get_last_nonzero. split; [|split].
  - intros i. rewrite np_max_spec, np_nonzero_In. split.
    + intros [[Hi Hnz] Hmax]. repeat split; auto.
      intros j Hj. destruct (Req_dec_T (nth j N 0) 0) as [E | E]; [exact E|].
      destruct (Nat.lt_ge_cases j (length N)) as [L | L].
      * assert (j <= i)%nat by (apply Hmax, np_nonzero_In; auto). lia.
      * apply nth_overflow. exact L.
    + intros (Hi & Hnz & Hlast). split; [auto|].
      intros x Hx. apply np_nonzero_In in Hx. destruct Hx as [Hx Hxnz].
      destruct (Nat.le_gt_cases x i) as [L | L]; [exact L|].
      exfalso. apply Hxnz. apply Hlast. exact L.
  - split.
    + intros E. apply Forall_forall. intros x Hx.
      destruct (Req_dec_T x 0) as [Z | Z]; [exact Z|]. exfalso.
      destruct (In_nth N x 0 Hx) as (i & Hi & Hn).
      assert (Hin : In i (np_nonzero N))
        by (apply np_nonzero_In; split; [exact Hi | rewrite Hn; exact Z]).
      destruct (np_nonzero N) as [|k l]; [destruct Hin | discriminate].
    + intros HF. destruct (np_nonzero N) as [|k l] eqn:E; [reflexivity|].
      exfalso. assert (Hin : In k (np_nonzero N)) by (rewrite E; left; auto).
      apply np_nonzero_In in Hin. destruct Hin as [Hk Hnz].
      apply Hnz. rewrite Forall_forall in HF. apply HF. apply nth_In. exact Hk.
  - intros e. destruct (np_nonzero N); cbn [np_max]; congruence.
Qed.

(** ** [mmultiply] over any number of arrays *)

Lemma map_nth_all (v : list R) :
  map (fun i => nth i v 0) (seq 0 (length v)) = v.
Proof.
  apply (nth_ext _ _ 0 0).
  - rewrite length_map, length_seq. reflexivity.
  - intros i Hi. rewrite length_map, length_seq in Hi.
    rewrite (nth_map_lt _ (seq 0 (length v)) i 0%nat)
      by (rewrite length_seq; exact Hi).
    rewrite seq_nth by exact Hi. reflexivity.
Qed.

Lemma mmultiply_from_app (l1 l2 : list (list R)) :
  forall v, mmultiply_from v (l1 ++ l2)
            = (v' <- mmultiply_from v l1 ;; mmultiply_from v' l2).
Proof.
  induction l1 as [|a l1 IH]; intros v; [reflexivity|].
  cbn [app mmultiply_from].
  destruct (np_multiply v a) as [v'|e]; cbn [bind]; auto.
Qed.

Lemma mmultiply_from_product (n : nat) (args : list (list R)) :
  forall v, length v = n -> Forall (fun a => length a = n) args ->
    mmultiply_from v args
    = Ok (map (fun i => fold_left (fun acc a => acc * nth i a 0) args
                                  (nth i v 0))
              (seq 0 n)).
Proof.
  induction args as [|a args IH]; intros v Hv Hall.
  - cbn [mmultiply_from fold_left]. rewrite <- Hv, map_nth_all. reflexivity.
  - inversion Hall as [|? ? Ha Hrest]; subst.
    cbn [mmultiply_from fold_left].
    rewrite np_multiply_same by congruence. cbn [bind].
    rewrite IH by (try assumption; rewrite zip_with_length; congruence).
    f_equal. apply map_ext_in. intros i Hi. apply in_seq in Hi.
    rewrite (zip_with_nth Rmult 0 0 0) by (try congruence; lia).
    reflexivity.
Qed.

(** X2.  For one or more arrays of one length [n], [mmultiply] returns the
    array of length [n] whose entry [i] is the product of their entries at
    [i]. *)
Theorem mmultiply_product (args : list (list R)) (n : nat) :
  args <> [] -> Forall (fun a => length a = n) args ->
  mmultiply args = Ok (map (product_at args) (seq 0 n)).
Proof.
  intros Hne Hall. destruct args as [|a0 rest]; [contradiction|].
  unfold mmultiply. cbn [getitem nth_error bind].
  assert (Ha0 : length a0 = n) by (inversion Hall; assumption).
  rewrite Ha0.
  rewrite (mmultiply_from_product n) by (try exact Hall; apply repeat_length).
  f_equal. apply map_ext_in. intros i Hi. apply in_seq in Hi.
  unfold product_at. rewrite np_ones_nth by lia. reflexivity.
Qed.

Lemma mmultiply_product_witness :
  mmultiply [[1; 2]; [3; 4]; [5; 6]]
  = Ok (map (product_at [[1; 2]; [3; 4]; [5; 6]]) (seq 0 2)).
Proof.
  apply (mmultiply_product [[1; 2]; [3; 4]; [5; 6]] 2).
  - discriminate.
  - repeat constructor.
Defined.

Lemma mmultiply_mismatch (pre : list (list R)) (b : list R)
  (post : list (list R)) (n : nat) :
  pre <> [] -> Forall (fun a => length a = n) pre ->
  length b <> n -> length b <> 1%nat -> n <> 1%nat ->
  mmultiply (pre ++ b :: post) = Raise ValueError.
Proof.
  intros Hne Hall Hb Hb1 Hn1. destruct pre as [|a0 pre']; [contradiction|].
  unfold mmultiply. cbn [app getitem nth_error bind].
  assert (Ha0 : length a0 = n) by (inversion Hall; assumption).
  rewrite Ha0.
  change (a0 :: pre' ++ b :: post) with ((a0 :: pre') ++ b :: post).
  rewrite mmultiply_from_app.
  rewrite (mmultiply_from_product n) by (try exact Hall; apply repeat_length).
  cbn [bind mmultiply_from].
  set (v := map _ (seq 0 n)).
  assert (Hv : length v = n) by (unfold v; rewrite length_map, length_seq; auto).
  unfold np_multiply, broadcast2. rewrite Hv.
  destruct (Nat.eqb_spec n (length b)) as [E | E]; [congruence|].
  destruct v as [|x [|x' v']]; destruct b as [|y [|y' b']];
    cbn in *; try reflexivity; congruence.
Qed.

(** X3.  When the arrays before [b] all have length [n] and [b] has another
    length, neither length being one, [mmultiply] raises [ValueError]: the
    product so far and [b] do not broadcast. *)
Theorem mmultiply_shape_error (pre : list (list R)) (b : list R)
  (post : list (list R)) (n : nat) :
  pre <> [] -> Forall (fun a => length a = n) pre ->
  length b <> n -> length b <> 1%nat -> n <> 1%nat ->
  mmultiply (pre ++ b :: post) = Raise ValueError.
Proof. exact (mmultiply_mismatch pre b post n). Qed.

Lemma mmultiply_shape_error_witness :
  mmultiply ([[1; 2]; [3; 4]] ++ [5; 6; 7] :: [[8; 9]]) = Raise ValueError.
Proof.
  apply (mmultiply_shape_error [[1; 2]; [3; 4]] [5; 6; 7] [[8; 9]] 2).
  - discriminate.
  - repeat constructor.
  - cbn. discriminate.
  - cbn. discriminate.
  - discriminate.
Defined.

(** ** [calculate_RR]: what it reads, and when it raises *)

Lemma calculate_RR_loop_rain_rate (self : DropSizeDistribution)
  (x : option (list R)) :
  forall ts rr,
    calculate_RR_loop (set_rain_rate self x) rr ts
    = calculate_RR_loop self rr ts.
Proof.
  induction ts as [|t ts IH]; intros rr; [reflexivity|].
  cbn [calculate_RR_loop].
  change (calculate_RR_step (set_rain_rate self x) rr t)
    with (calculate_RR_step self rr t).
  destruct (calculate_RR_step self rr t); cbn [bind]; auto.
Qed.

Lemma calculate_RR_loop_time (self : DropSizeDistribution) (tm : list R) :
  forall ts rr,
    calculate_RR_loop (set_time self tm) rr ts
    = calculate_RR_loop self rr ts.
Proof.
  induction ts as [|t ts IH]; intros rr; [reflexivity|].
  cbn [calculate_RR_loop].
  change (calculate_RR_step (set_time self tm) rr t)
    with (calculate_RR_step self rr t).
  destruct (calculate_RR_step self rr t); cbn [bind]; auto.
Qed.

Lemma calculate_RR_loop_app (self : DropSizeDistribution) (l1 l2 : list nat) :
  forall rr,
    calculate_RR_loop self rr (l1 ++ l2)
    = (rr' <- calculate_RR_loop self rr l1 ;; calculate_RR_loop self rr' l2).
Proof.
  induction l1 as [|t l1 IH]; intros rr; [reflexivity|].
  cbn [app calculate_RR_loop].
  destruct (calculate_RR_step self rr t); cbn [bind]; auto.
Qed.

Lemma calculate_RR_ignores_rain_rate (self : DropSizeDistribution)
  (x : option (list R)) :
  calculate_RR (set_rain_rate self x) = calculate_RR self.
Proof.
  unfold calculate_RR. cbn [set_rain_rate time].
  rewrite calculate_RR_loop_rain_rate.
  destruct (calculate_RR_loop self _ _); reflexivity.
Qed.

(** X4.  [calculate_RR] never reads the rain rate the object holds, so
    running it a second time on its own result changes nothing: the second
    run returns the same object, or, if the first run raises, there is no
    second run. *)
Theorem calculate_RR_idempotent (self : DropSizeDistribution) :
  (forall x, calculate_RR (set_rain_rate self x) = calculate_RR self) /\
  (r <- calculate_RR self ;; calculate_RR r) = calculate_RR self.
Proof.
  split; [apply calculate_RR_ignores_rain_rate|].
  destruct (calculate_RR_loop self (np_zeros (length (time self)))
              (seq 0 (length (time self)))) as [rr|e] eqn:L.
  - assert (E : calculate_RR self = Ok (set_rain_rate self (Some rr)))
      by (unfold calculate_RR; rewrite L; reflexivity).
    rewrite E. cbn [bind]. rewrite calculate_RR_ignores_rain_rate. exact E.
  - assert (E : calculate_RR self = Raise e)
      by (unfold calculate_RR; rewrite L; reflexivity).
    rewrite E. reflexivity.
Qed.

(** X5.  With at least one timestep, [calculate_RR] cannot do without bin
    centres: it raises [TypeError] when [diameter] is [None] and
    [IndexError] when [diameter] is empty. *)
Theorem calculate_RR_needs_bins (self : DropSizeDistribution) :
  time self <> [] ->
  diameter self = None \/ diameter self = Some [] ->
  calculate_RR self
  = Raise (match diameter self with
           | None => TypeError
           | Some _ => IndexError
           end).
Proof.
  intros Ht Hd. unfold calculate_RR.
  destruct (time self) as [|t0 tm]; [contradiction|].
  cbn [length seq calculate_RR_loop]. unfold calculate_RR_step.
  destruct Hd as [Hd | Hd]; rewrite Hd; reflexivity.
Qed.

Lemma calculate_RR_needs_bins_witness :
  calculate_RR (mkDSD [0] [[1]] [1] None None None None None None
                      (Some [0]) [0] [0] [0])
  = Raise TypeError.
Proof.
  apply (calculate_RR_needs_bins
           (mkDSD [0] [[1]] [1] None None None None None None
                  (Some [0]) [0] [0] [0])).
  - discriminate.
  - left. reflexivity.
Defined.

(** X6.  When [Nd] has fewer rows than there are timesteps, and the rows it
    has fit the bins, [calculate_RR] raises [IndexError] at the first
    missing row. *)
Theorem calculate_RR_missing_rows (self : DropSizeDistribution) (d : list R) :
  diameter self = Some d -> (0 < length d)%nat ->
  length (spread self) = length d ->
  Forall (fun row => length row = length d) (Nd self) ->
  (length (Nd self) < length (time self))%nat ->
  calculate_RR self = Raise IndexError.
Proof.
  intros Hd Hpos Hs Hrows Hlt. unfold calculate_RR.
  set (T := length (time self)). set (k := length (Nd self)).
  assert (ET : (T = k + S (T - S k))%nat) by (unfold T, k; lia).
  rewrite ET at 2. rewrite seq_app. cbn [seq].
  rewrite calculate_RR_loop_app.
  rewrite <- (calculate_RR_loop_time self (firstn k (time self))).
  rewrite (calculate_RR_loop_ok (set_time self (firstn k (time self))) d).
  - cbn [bind calculate_RR_loop]. unfold calculate_RR_step.
    rewrite Hd. cbn [array_of bind].
    rewrite setitem_ok by (rewrite length_map; exact Hpos). cbn [bind].
    unfold getitem.
    assert (EN : nth_error (Nd self) (0 + k) = None)
      by (apply nth_error_None; unfold k; lia).
    rewrite EN. reflexivity.
  - unfold well_shaped. cbn [set_time diameter spread Nd time].
    rewrite length_firstn. repeat split; auto. unfold k, T in *. lia.
  - apply Forall_forall. intros t Ht. apply in_seq in Ht.
    cbn [set_time time]. rewrite length_firstn.
    unfold np_zeros. rewrite repeat_length. unfold k, T in *. lia.
Qed.

Lemma calculate_RR_missing_rows_witness :
  calculate_RR (mkDSD [0; 1] [[1; 2]] [1; 1] None None None None None
                      (Some [1; 2]) (Some [0; 0]) [0; 0] [0; 0] [0; 0])
  = Raise IndexError.
Proof.
  apply (calculate_RR_missing_rows
           (mkDSD [0; 1] [[1; 2]] [1; 1] None None None None None
                  (Some [1; 2]) (Some [0; 0]) [0; 0] [0; 0] [0; 0])
           [1; 2]).
  - reflexivity.
  - cbn. apply Nat.lt_0_succ.
  - reflexivity.
  - repeat constructor.
  - cbn. apply Nat.lt_succ_diag_r.
Defined.

(** X7.  With two or more bins, a first row of [Nd] that fits them and a
    [spread] of another length (other than one), [calculate_RR] raises
    [ValueError] in its first timestep. *)
Theorem calculate_RR_spread_mismatch (self : DropSizeDistribution)
  (d : list R) :
  diameter self = Some d -> (2 <= length d)%nat ->
  time self <> [] -> (0 < length (Nd self))%nat ->
  length (nth 0 (Nd self) []) = length d ->
  length (spread self) <> length d -> length (spread self) <> 1%nat ->
  calculate_RR self = Raise ValueError.
Proof.
  intros Hd H2 Ht Hnd Hrow Hs Hs1. unfold calculate_RR.
  destruct (time self) as [|t0 tm]; [contradiction|].
  cbn [length seq calculate_RR_loop]. unfold calculate_RR_step.
  rewrite Hd. cbn [array_of bind].
  rewrite setitem_ok by (rewrite length_map; lia). cbn [bind].
  rewrite (getitem_ok (Nd self) 0 []) by exact Hnd. cbn [bind].
  pose proof (mmultiply_mismatch
             [update (map (fun D => 9.65 - 10.3 * exp (- 0.6 * D)) d) 0 0.5;
              nth 0 (Nd self) []]
             (spread self) [map (fun D => D ^ 3) d] (length d)) as M.
  cbn [app] in M. rewrite M.
  - reflexivity.
  - discriminate.
  - repeat constructor; [rewrite update_length, length_map|]; auto.
  - exact Hs.
  - exact Hs1.
  - lia.
Qed.

Lemma calculate_RR_spread_mismatch_witness :
  calculate_RR (mkDSD [0] [[1; 2]] [1; 1; 1] None None None None None
                      (Some [1; 2]) (Some [0]) [0] [0] [0])
  = Raise ValueError.
Proof.
  apply (calculate_RR_spread_mismatch
           (mkDSD [0] [[1; 2]] [1; 1; 1] None None None None None
                  (Some [1; 2]) (Some [0]) [0] [0] [0])
           [1; 2]).
  - reflexivity.
  - cbn. apply le_n.
  - discriminate.
  - cbn. apply Nat.lt_0_succ.
  - reflexivity.
  - cbn. discriminate.
  - cbn. discriminate.
Defined.

(** ** [calculate_RR] as a function of the concentrations *)

Lemma bigsum_zero (n : nat) (f : nat -> R) :
  (forall i, (i < n)%nat -> f i = 0) -> bigsum n f = 0.
Proof.
  induction n as [|n IH]; intros H; [reflexivity|].
  rewrite bigsum_S, IH, H by (intros; try apply H; lia). lra.
Qed.

Lemma bigsum_linear (n : nat) (c : R) (f g : nat -> R) :
  bigsum n (fun i => c * f i + g i) = c * bigsum n f + bigsum n g.
Proof.
  induction n as [|n IH]; [unfold bigsum; simpl; lra|].
  rewrite !bigsum_S, IH. lra.
Qed.

Lemma bigsum_nonneg (n : nat) (f : nat -> R) :
  (forall i, (i < n)%nat -> 0 <= f i) -> 0 <= bigsum n f.
Proof.
  induction n as [|n IH]; intros H; [unfold bigsum; simpl; lra|].
  rewrite bigsum_S.
  assert (0 <= bigsum n f) by (apply IH; intros; apply H; lia).
  assert (0 <= f n) by (apply H; lia). lra.
Qed.

Lemma map_const_zero (n : nat) (f : nat -> R) :
  (forall t, (t < n)%nat -> f t = 0) -> map f (seq 0 n) = np_zeros n.
Proof.
  intros H. apply (nth_ext _ _ 0 0).
  - unfold np_zeros. rewrite length_map, length_seq, repeat_length. reflexivity.
  - intros t Ht. rewrite length_map, length_seq in Ht.
    rewrite (nth_map_lt f (seq 0 n) t 0%nat) by (rewrite length_seq; exact Ht).
    rewrite seq_nth by exact Ht. unfold np_zeros. rewrite nth_repeat.
    apply H. exact Ht.
Qed.

Lemma entry_in_range (P : R -> Prop) (nd : list (list R)) (t i : nat) :
  P 0 -> Forall (Forall P) nd -> P (entry nd t i).
Proof.
  intros H0 H. unfold entry.
  destruct (Nat.lt_ge_cases t (length nd)) as [Lt | Lt].
  - assert (Hrow : Forall P (nth t nd [])).
    { rewrite Forall_forall in H. apply H. apply nth_In. exact Lt. }
    destruct (Nat.lt_ge_cases i (length (nth t nd []))) as [Li | Li].
    + rewrite Forall_forall in Hrow. apply Hrow. apply nth_In. exact Li.
    + rewrite nth_overflow by exact Li. exact H0.
  - rewrite (nth_overflow nd) by exact Lt. destruct i; exact H0.
Qed.

(** X8.  With every concentration zero, [calculate_RR] sets the rain rate
    to zero at every timestep. *)
Theorem calculate_RR_zero_concentration (self : DropSizeDistribution)
  (d : list R) :
  well_shaped self d ->
  Forall (Forall (fun x => x = 0)) (Nd self) ->
  calculate_RR self
  = Ok (set_rain_rate self (Some (np_zeros (length (time self))))).
Proof.
  intros W Hz. rewrite (calculate_RR_correct self d W). do 3 f_equal.
  unfold rain_rate_spec. apply map_const_zero. intros t Ht.
  unfold rain_rate_at. rewrite bigsum_zero; [lra|].
  intros i Hi.
  rewrite (entry_in_range (fun x => x = 0) (Nd self) t i eq_refl Hz). lra.
Qed.

Lemma calculate_RR_zero_concentration_witness :
  calculate_RR dsd_drizzle
  = Ok (set_rain_rate dsd_drizzle
          (Some (np_zeros (length (time dsd_drizzle))))).
Proof.
  apply (calculate_RR_zero_concentration dsd_drizzle [0.01; 0.05]).
  - unfold well_shaped, dsd_drizzle. check_shape.
  - unfold dsd_drizzle. cbn. repeat constructor.
Defined.



Lemma zip_with_Forall {A B C : Type} (f : A -> B -> C)
  (P : A -> Prop) (Q : B -> Prop) (S : C -> Prop) :
  (forall a b, P a -> Q b -> S (f a b)) ->
  forall l1 l2, Forall P l1 -> Forall Q l2 -> Forall S (zip_with f l1 l2).
Proof.
  intros H. induction l1 as [|a l1 IH]; intros [|b l2] H1 H2;
    cbn [zip_with]; try constructor.
  - inversion H1; inversion H2; subst. auto.
  - inversion H1; inversion H2; subst. auto.
Qed.

Lemma entry_combination (c : R) (nd1 nd2 : list (list R)) (n t i : nat) :
  length nd1 = length nd2 ->
  Forall (fun row => length row = n) nd1 ->
  Forall (fun row => length row = n) nd2 ->
  (t < length nd1)%nat -> (i < n)%nat ->
  entry (add_Nd (scale_Nd c nd1) nd2) t i
  = c * entry nd1 t i + entry nd2 t i.
Proof.
  intros Hl H1 H2 Ht Hi. unfold entry, add_Nd, scale_Nd.
  assert (R1 : length (nth t nd1 []) = n)
    by (rewrite Forall_forall in H1; apply H1, nth_In; exact Ht).
  assert (R2 : length (nth t nd2 []) = n)
    by (rewrite Forall_forall in H2; apply H2, nth_In; lia).
  rewrite (zip_with_nth (zip_with Rplus) [] [] [])
    by (rewrite length_map; auto).
  rewrite (nth_map_lt (map (Rmult c)) nd1 t [] []) by exact Ht.
  rewrite (zip_with_nth Rplus 0 0 0)
    by (rewrite length_map; congruence || lia).
  rewrite (nth_map_lt (Rmult c) (nth t nd1 []) i 0 0) by lia.
  reflexivity.
Qed.



(** X11.  With no negative concentration, no negative width, a first bin
    centre that is not negative and every other bin centre at 0.12 mm or
    more, no rain rate that [calculate_RR] produces is negative. *)
Theorem calculate_RR_nonneg (self : DropSizeDistribution) (d : list R) :
  well_shaped self d ->
  Forall (Forall (fun x => 0 <= x)) (Nd self) ->
  Forall (fun s => 0 <= s) (spread self) ->
  0 <= nth 0 d 0 ->
  (forall i, (1 <= i < length d)%nat -> 0.12 <= nth i d 0) ->
  exists rr,
    calculate_RR self = Ok (set_rain_rate self (Some rr)) /\
    Forall (fun r => 0 <= r) rr.
Proof.
  intros W Hnd Hsp Hd0 Hdi. exists (rain_rate_spec self d).
  split; [apply calculate_RR_correct; exact W|].
  apply Forall_forall. intros r Hr. unfold rain_rate_spec in Hr.
  apply in_map_iff in Hr. destruct Hr as (t & E & _). subst r.
  unfold rain_rate_at. pose proof rain_rate_scale_pos as Hc.
  apply Rmult_le_pos; [lra|]. apply bigsum_nonneg. intros i Hi.
  assert (Hv : 0 <= velocity_spec i (nth i d 0)).
  { unfold velocity_spec. destruct (Nat.eqb_spec i 0) as [E | E]; [lra|].
    apply velocity_nonneg. apply Hdi. lia. }
  assert (He : 0 <= entry (Nd self) t i)
    by (apply (entry_in_range (fun x => 0 <= x)); [lra | exact Hnd]).
  assert (Hs : 0 <= nth i (spread self) 0).
  { destruct (Nat.lt_ge_cases i (length (spread self))) as [L | L].
    - rewrite Forall_forall in Hsp. apply Hsp, nth_In. exact L.
    - rewrite nth_overflow by exact L. lra. }
  assert (Hdd : 0 <= nth i d 0).
  { destruct (Nat.eq_dec i 0) as [E | E]; [subst i; exact Hd0|].
    assert (0.12 <= nth i d 0) by (apply Hdi; lia). lra. }
  assert (Hcube : 0 <= nth i d 0 ^ 3) by (apply pow_le; exact Hdd).
  apply Rmult_le_pos; [apply Rmult_le_pos; [apply Rmult_le_pos|]|];
    assumption.
Qed.

Lemma calculate_RR_nonneg_witness :
  exists rr,
    calculate_RR dsd_scenario = Ok (set_rain_rate dsd_scenario (Some rr)) /\
    Forall (fun r => 0 <= r) rr.
Proof.
  apply (calculate_RR_nonneg dsd_scenario [0.5; 1; 1.5]).
  - unfold well_shaped, dsd_scenario. check_shape.
  - unfold dsd_scenario. cbn. repeat constructor; lra.
  - unfold dsd_scenario. cbn. repeat constructor; lra.
  - cbn. lra.
  - intros i Hi. cbn in Hi.
    destruct i as [|[|[|i]]]; cbn; try lra; lia.
Defined.

(** ** What reaches the regression routines *)

Lemma at_steps_length (a : list R) (ts : list nat) :
  length (at_steps a ts) = length ts.
Proof. unfold at_steps. apply length_map. Qed.

Lemma at_steps_positive (a : list R) (ts : list nat) :
  (forall t, In t ts -> 0 < nth t a 0) ->
  Forall (fun v => 0 < v) (at_steps a ts).
Proof.
  intros H. apply Forall_forall. intros v Hv. unfold at_steps in Hv.
  apply in_map_iff in Hv. destruct Hv as (t & E & Ht). subst v. auto.
Qed.

Lemma np_power_positive (x y : R) : 0 < np_power x y.
Proof. unfold np_power, Rpower. apply exp_pos. Qed.

Lemma rr_positive_steps (rr : list R) (t : nat) :
  In t (kept (rr_positive rr) (length rr)) -> 0 < nth t rr 0.
Proof.
  intros H. apply kept_In in H. destruct H as [_ H].
  unfold rr_positive in H. apply gt0_true. exact H.
Qed.



(** X13.  [calc_R_kdp_relationship] raises before it would call [expfit]
    when the rain rate is [None] ([TypeError]) and when [Kdp] and the rain
    rate have different lengths, neither of them one ([ValueError]). *)
Theorem calc_R_kdp_relationship_raises (expfit : expfit_t)
  (self : DropSizeDistribution) :
  rain_rate self = None \/
  (exists rr, rain_rate self = Some rr /\
              length (Kdp self) <> length rr /\
              length (Kdp self) <> 1%nat /\ length rr <> 1%nat) ->
  calc_R_kdp_relationship expfit self
  = Raise (match rain_rate self with
           | None => TypeError
           | Some _ => ValueError
           end).
Proof.
  intros [H | (rr & H & Hl & Hk1 & Hr1)];
    unfold calc_R_kdp_relationship; rewrite H; [reflexivity|].
  cbn [array_of bind]. unfold np_logical_and, broadcast2, np_gt0.
  rewrite !length_map.
  destruct (Nat.eqb_spec (length (Kdp self)) (length rr)) as [E | E];
    [contradiction|].
  destruct (Kdp self) as [|k [|k' ks]]; destruct rr as [|r [|r' rs]];
    cbn in *; try reflexivity; congruence.
Qed.

Lemma calc_R_kdp_relationship_raises_witness :
  calc_R_kdp_relationship expfit_echo dsd_scenario = Raise TypeError.
Proof.
  apply (calc_R_kdp_relationship_raises expfit_echo dsd_scenario).
  left. reflexivity.
Defined.

(** ** A freshly constructed object *)

Lemma idb_of_zeros (n : nat) (ts : list nat) :
  map (fun v => Rpower 10 (0.1 * v)) (at_steps (np_zeros n) ts)
  = np_ones (length ts).
Proof.
  unfold at_steps, np_ones, np_zeros. rewrite map_map.
  induction ts as [|t ts IH]; [reflexivity|].
  cbn [map length repeat]. rewrite IH. f_equal.
  rewrite nth_repeat. replace (0.1 * 0) with 0 by lra.
  apply Rpower_O. lra.
Qed.

(** X14.  On an object as the constructor leaves it (radar parameters never
    calculated, a rain rate supplied), the fitting methods do not notice:
    [calc_R_kdp_relationship] calls [expfit] on two empty sequences,
    [calc_R_Zh_relationship] fits the positive rain rates against a series
    of ones, and a three-moment [calc_rainfall_relationship] calls
    [curve_fit] on three empty series. *)
Theorem fresh_object_fits (expfit : expfit_t) (curve_fit : curve_fit_t)
  (tm : list R) (nd : list (list R)) (sp rr : list R)
  (v z np be dm : option (list R)) (ms : list string) :
  length rr = length tm -> length ms = 3%nat ->
  exists self,
    __init__ tm nd sp (Some rr) v z np be dm = Ok self /\
    calc_R_kdp_relationship expfit self = fit_outcome (expfit [] []) /\
    calc_R_Zh_relationship expfit self
    = fit_outcome
        (expfit (np_ones (length (kept (rr_positive rr) (length rr))))
                (at_steps rr (kept (rr_positive rr) (length rr)))) /\
    calc_rainfall_relationship curve_fit self (Some ms)
    = ([], fit_outcome (curve_fit fit_func ([], [], []) [1; 1; 1; 1])).
Proof.
  intros Hlen Hms. eexists. split; [reflexivity|].
  set (self := mkDSD tm nd sp (Some rr) v z np be dm
                     (Some (np_zeros (length tm))) (np_zeros (length tm))
                     (np_zeros (length tm)) (np_zeros (length tm))).
  assert (Hz : length (np_zeros (length tm)) = length rr)
    by (unfold np_zeros; rewrite repeat_length; congruence).
  assert (Hsteps : fit_steps self rr = [])
    by (apply fit_steps_zero_Kdp; unfold self; cbn; congruence).
  split; [|split].
  - rewrite (calc_R_kdp_relationship_steps expfit self rr eq_refl Hz).
    rewrite Hsteps. reflexivity.
  - rewrite (calc_R_Zh_relationship_steps expfit self rr
               (np_zeros (length tm)) eq_refl eq_refl Hz).
    rewrite idb_of_zeros. reflexivity.
  - assert (Hready : radar_ready self rr (np_zeros (length tm)))
      by (unfold radar_ready, self; cbn; repeat split; congruence).
    rewrite (calc_rainfall_relationship_three curve_fit self ms rr _
               Hready Hms).
    rewrite Hsteps. reflexivity.
Qed.

Lemma fresh_object_fits_witness :
  exists self,
    __init__ [0; 1] [[1]; [2]] [1] (Some [4; 0]) None None None None None
    = Ok self /\
    calc_R_kdp_relationship expfit_echo self
    = fit_outcome (expfit_echo [] []) /\
    calc_R_Zh_relationship expfit_echo self
    = fit_outcome
        (expfit_echo
           (np_ones (length (kept (rr_positive [4; 0]) (length [4; 0]))))
           (at_steps [4; 0] (kept (rr_positive [4; 0]) (length [4; 0])))) /\
    calc_rainfall_relationship curve_fit_echo self
      (Some ["reflectivity"; "differential_reflectivity";
             "specific_differential_phase"]%string)
    = ([], fit_outcome (curve_fit_echo fit_func ([], [], []) [1; 1; 1; 1])).
Proof.
  apply (fresh_object_fits expfit_echo curve_fit_echo [0; 1] [[1]; [2]] [1]
           [4; 0] None None None None None
           ["reflectivity"; "differential_reflectivity";
            "specific_differential_phase"]%string);
    reflexivity.
Defined.

(** ** The moments selection *)

Lemma contains_In (s : string) (ms : list string) :
  contains s ms = true <-> In s ms.
Proof.
  unfold contains. rewrite existsb_exists. split.
  - intros (x & Hx & E). apply String.eqb_eq in E. subst x. exact Hx.
  - intros H. exists s. split; [exact H | apply String.eqb_refl].
Qed.

Lemma contains_same (s : string) (ms ms' : list string) :
  (In s ms <-> In s ms') -> contains s ms = contains s ms'.
Proof.
  intros H. destruct (contains s ms) eqn:E, (contains s ms') eqn:E';
    try reflexivity.
  - apply contains_In, H, contains_In in E. congruence.
  - apply contains_In, H, contains_In in E'. congruence.
Qed.

(** X15.  A three-entry selection matters only through which of the three
    moment names occur in it: order, repetitions and any other strings make
    no difference to the outcome of [calc_rainfall_relationship]. *)
Theorem moments_membership_only (curve_fit : curve_fit_t)
  (self : DropSizeDistribution) (ms ms' : list string) (rr zh : list R) :
  radar_ready self rr zh ->
  length ms = 3%nat -> length ms' = 3%nat ->
  (forall name,
     In name ["reflectivity"; "differential_reflectivity";
              "specific_differential_phase"]%string ->
     (In name ms <-> In name ms')) ->
  calc_rainfall_relationship curve_fit self (Some ms)
  = calc_rainfall_relationship curve_fit self (Some ms').
Proof.
  intros Hready Hms Hms' Hsame.
  rewrite (calc_rainfall_relationship_three curve_fit self ms rr zh)
    by assumption.
  rewrite (calc_rainfall_relationship_three curve_fit self ms' rr zh)
    by assumption.
  unfold fit_xdata.
  rewrite (contains_same "reflectivity" ms ms')
    by (apply Hsame; cbn; auto).
  rewrite (contains_same "differential_reflectivity" ms ms')
    by (apply Hsame; cbn; auto).
  rewrite (contains_same "specific_differential_phase" ms ms')
    by (apply Hsame; cbn; auto).
  reflexivity.
Qed.

Lemma moments_membership_only_witness :
  calc_rainfall_relationship curve_fit_echo dsd_radar
    (Some ["reflectivity"; "specific_differential_phase"; "reflectivity"]%string)
  = calc_rainfall_relationship curve_fit_echo dsd_radar
      (Some ["specific_differential_phase"; "reflectivity"; "rain"]%string).
Proof.
  apply (moments_membership_only curve_fit_echo dsd_radar
           ["reflectivity"; "specific_differential_phase";
            "reflectivity"]%string
           ["specific_differential_phase"; "reflectivity"; "rain"]%string
           [1; 3; 0] [10; 20; 30]).
  - unfold radar_ready, dsd_radar. check_shape.
  - reflexivity.
  - reflexivity.
  - intros name Hname. cbn in Hname.
    destruct Hname as [E | [E | [E | []]]]; subst name; cbn;
      split; intros H;
      repeat (destruct H as [H | H]; [try discriminate H | ]);
      try contradiction; auto.
Defined.

(** ** The model function of the three-moment fit *)

Lemma fit_func_formula (x1 x2 x3 : list R) (a b c d : R) (n : nat) :
  length x1 = n -> length x2 = n -> length x3 = n ->
  fit_func x1 x2 x3 a b c d
  = Ok (map (fun i => a * (Rpower 10 (0.1 * (b * nth i x1 0 + c * nth i x2 0))
                           * Rpower (nth i x3 0) d))
            (seq 0 n)).
Proof.
  intros H1 H2 H3. unfold fit_func, __idb.
  set (A := map (fun v => np_power v b) (map _ x1)).
  set (B := map (fun v => np_power v c) (map _ x2)).
  set (C := map (fun v => np_power v d) x3).
  assert (LA : length A = n) by (unfold A; rewrite !length_map; exact H1).
  assert (LB : length B = n) by (unfold B; rewrite !length_map; exact H2).
  assert (LC : length C = n) by (unfold C; rewrite length_map; exact H3).
  assert (LP : length (zip_with Rmult A B) = n)
    by (rewrite zip_with_length; congruence).
  assert (LQ : length (zip_with Rmult (zip_with Rmult A B) C) = n)
    by (rewrite zip_with_length; congruence).
  rewrite (np_multiply_same A B) by congruence. cbn [bind].
  rewrite (np_multiply_same (zip_with Rmult A B) C) by congruence.
  cbn [bind]. f_equal.
  apply (nth_ext _ _ 0 0).
  - rewrite !length_map, length_seq. exact LQ.
  - intros i Hi. rewrite length_map, LQ in Hi.
    rewrite (nth_map_lt (Rmult a) _ i 0 0) by lia.
    rewrite (zip_with_nth Rmult 0 0 0 (zip_with Rmult A B) C i) by lia.
    rewrite (zip_with_nth Rmult 0 0 0 A B i) by lia.
    rewrite (nth_map_lt _ (seq 0 n) i 0%nat 0)
      by (rewrite length_seq; exact Hi).
    rewrite seq_nth by exact Hi. cbn [Nat.add].
    unfold A, B, C.
    rewrite (nth_map_lt _ (map _ x1) i 0 0) by (rewrite length_map; lia).
    rewrite (nth_map_lt _ x1 i 0 0) by lia.
    rewrite (nth_map_lt _ (map _ x2) i 0 0) by (rewrite length_map; lia).
    rewrite (nth_map_lt _ x2 i 0 0) by lia.
    rewrite (nth_map_lt _ x3 i 0 0) by lia.
    unfold np_power. rewrite !Rpower_mult, <- Rpower_plus.
    do 3 f_equal. ring.
Qed.





(** ** The loop body of [_calc_mth_moment] *)

Lemma map_rows_length (f : list R -> result (list R)) :
  forall m p, map_rows f m = Ok p -> length p = length m.
Proof.
  induction m as [|row m IH]; intros p H; cbn [map_rows] in H.
  - injection H as H. subst p. reflexivity.
  - destruct (f row) as [r|e]; cbn [bind] in H; [|discriminate].
    destruct (map_rows f m) as [rs|e]; cbn [bind] in H; [|discriminate].
    injection H as H. subst p. cbn [length]. f_equal. apply IH. reflexivity.
Qed.

Lemma np_multiply_raises (a b : list R) (e : exn) :
  np_multiply a b = Raise e -> e = ValueError.
Proof.
  unfold np_multiply, broadcast2.
  destruct (Nat.eqb (length a) (length b)); [discriminate|].
  destruct a as [|x [|x' a']]; destruct b as [|y [|y' b']];
    intros H; try discriminate H; injection H as H; auto.
Qed.

Lemma map_rows_raises (f : list R -> result (list R)) :
  (forall row e, f row = Raise e -> e = ValueError) ->
  forall m e, map_rows f m = Raise e -> e = ValueError.
Proof.
  intros Hf. induction m as [|row m IH]; intros e H; cbn [map_rows] in H.
  - discriminate.
  - destruct (f row) as [r|e'] eqn:E; cbn [bind] in H.
    + destruct (map_rows f m) as [rs|e'']; cbn [bind] in H;
        [discriminate|]. injection H as H. subst e''. apply IH. reflexivity.
    + injection H as H. subst e'. apply (Hf row). exact E.
Qed.



(** ** [calc_radar_parameters] *)

Lemma fill_all_any (g : nat -> R) (a : list R) (n : nat) :
  length a = n ->
  fold_left (fun acc t => update acc t (g t)) (seq 0 n) a = map g (seq 0 n).
Proof.
  intros Ha. apply (nth_ext _ _ 0 0).
  - rewrite fill_length, length_map, length_seq. exact Ha.
  - intros t Ht. rewrite fill_length, Ha in Ht.
    rewrite fill_by_index by lia.
    destruct (Nat.leb_spec 0 t), (Nat.ltb_spec t (0 + n)); simpl; try lia.
    rewrite (nth_map_lt g (seq 0 n) t 0%nat) by (rewrite length_seq; exact Ht).
    rewrite seq_nth by exact Ht. reflexivity.
Qed.

Lemma observables_inv (E : Pytmatrix) (sc : scatterer E)
  (be : option (list R)) (row : list R) (o : R * R * R * R) :
  observables E sc be row = Ok o ->
  exists p,
    BinnedPSD E be row = Ok p /\
    radar_Zdr E (set_geometry (set_psd sc p) geom_horiz_back)
    = Ok (obs_Zdr o) /\
    radar_refl E (set_geometry (set_psd sc p) geom_horiz_back)
    = Ok (obs_refl o) /\
    radar_Kdp E (set_geometry (set_psd sc p) geom_horiz_forw)
    = Ok (obs_Kdp o) /\
    radar_Ai E (set_geometry (set_psd sc p) geom_horiz_forw)
    = Ok (obs_Ai o).
Proof.
  unfold observables. intros H.
  destruct (BinnedPSD E be row) as [p|e]; cbn [bind] in H; [|discriminate].
  exists p.
  destruct (radar_Zdr E _) as [zdr|e]; cbn [bind] in H; [|discriminate].
  destruct (radar_refl E _) as [refl|e]; cbn [bind] in H; [|discriminate].
  destruct (radar_Kdp E _) as [kdp|e]; cbn [bind] in H; [|discriminate].
  destruct (radar_Ai E _) as [ai|e]; cbn [bind] in H; [|discriminate].
  injection H as H. subst o. repeat split; reflexivity.
Qed.

Lemma calc_radar_parameters_step_ok (E : Pytmatrix)
  (self : DropSizeDistribution) (sc0 sc : scatterer E)
  (zdr zh kdp ai row : list R) (t : nat) (o : R * R * R * R) :
  same_setup sc sc0 ->
  nth_error (Nd self) t = Some row ->
  observables E sc0 (bin_edges self) row = Ok o ->
  (t < length zdr)%nat -> (t < length zh)%nat ->
  (t < length kdp)%nat -> (t < length ai)%nat ->
  exists sc',
    calc_radar_parameters_step E (with_series self zdr zh kdp ai, sc) t
    = Done (with_series self
              (update zdr t (10 * np_log10 (obs_Zdr o)))
              (update zh t (10 * np_log10 (obs_refl o)))
              (update kdp t (obs_Kdp o))
              (update ai t (obs_Ai o)), sc') /\
    same_setup sc' sc0.
Proof.
  intros Hs Hrow Hobs L1 L2 L3 L4.
  destruct (observables_inv E sc0 _ _ _ Hobs)
    as (p & Hp & Hzdr & Hrefl & Hkdp & Hai).
  exists (set_geometry (set_psd sc0 p) geom_horiz_forw).
  split.
  - unfold calc_radar_parameters_step, with_series.
    cbn [set_Ai set_Kdp set_Zh set_Zdr Nd bin_edges Zdr Zh Kdp Ai].
    unfold getitem. rewrite Hrow. cbn [of_result obind].
    rewrite Hp. cbn [of_result obind].
    rewrite (Hs p geom_horiz_back), Hzdr. cbn [of_result obind].
    rewrite setitem_ok by exact L1. cbn [of_result obind].
    rewrite Hrefl. cbn [of_result obind array_of].
    rewrite setitem_ok by exact L2. cbn [of_result obind].
    change (set_geometry (set_geometry (set_psd sc0 p) geom_horiz_back)
                         geom_horiz_forw)
      with (set_geometry (set_psd sc0 p) geom_horiz_forw).
    rewrite Hkdp. cbn [of_result obind].
    rewrite setitem_ok by exact L3. cbn [of_result obind].
    rewrite Hai. cbn [of_result obind].
    rewrite setitem_ok by exact L4. cbn [of_result obind].
    reflexivity.
  - intros p' g'. reflexivity.
Qed.

Lemma calc_radar_parameters_loop_ok (E : Pytmatrix)
  (self : DropSizeDistribution) (sc0 : scatterer E)
  (obs : nat -> R * R * R * R) (n : nat) :
  forall ts sc zdr zh kdp ai,
    same_setup sc sc0 ->
    length zdr = n -> length zh = n -> length kdp = n -> length ai = n ->
    Forall (fun t => (t < n)%nat /\
                     exists row, nth_error (Nd self) t = Some row /\
                       observables E sc0 (bin_edges self) row = Ok (obs t))
           ts ->
    exists sc',
      calc_radar_parameters_loop E (with_series self zdr zh kdp ai, sc) ts
      = Done (with_series self
                (fold_left (fun acc t =>
                   update acc t (10 * np_log10 (obs_Zdr (obs t)))) ts zdr)
                (fold_left (fun acc t =>
                   update acc t (10 * np_log10 (obs_refl (obs t)))) ts zh)
                (fold_left (fun acc t =>
                   update acc t (obs_Kdp (obs t))) ts kdp)
                (fold_left (fun acc t =>
                   update acc t (obs_Ai (obs t))) ts ai), sc') /\
      same_setup sc' sc0.
Proof.
  induction ts as [|t ts IH]; intros sc zdr zh kdp ai Hs L1 L2 L3 L4 Hall.
  - exists sc. split; [reflexivity | exact Hs].
  - inversion Hall as [|? ? (Ht & row & Hrow & Hobs) Hrest]; subst.
    destruct (calc_radar_parameters_step_ok E self sc0 sc zdr zh kdp ai row
                t (obs t) Hs Hrow Hobs) as (sc1 & Hstep & Hs1);
      try lia.
    cbn [calc_radar_parameters_loop fold_left]. rewrite Hstep.
    cbn [obind].
    apply IH; rewrite ?update_length; auto.
Qed.

Lemma with_series_self (self : DropSizeDistribution) (zh : list R) :
  Zh self = Some zh ->
  self = with_series self (Zdr self) zh (Kdp self) (Ai self).
Proof.
  intros H. destruct self. cbn in H. subst. reflexivity.
Qed.

Lemma calc_radar_parameters_correct (E : Pytmatrix)
  (self : DropSizeDistribution) (wl : R) (sc : scatterer E) (zh : list R)
  (obs : nat -> R * R * R * R) :
  _setup_scattering E wl = Done sc ->
  Zh self = Some zh ->
  length (Zdr self) = length (time self) ->
  length zh = length (time self) ->
  length (Kdp self) = length (time self) ->
  length (Ai self) = length (time self) ->
  (forall t, (t < length (time self))%nat ->
     exists row, nth_error (Nd self) t = Some row /\
       observables E sc (bin_edges self) row = Ok (obs t)) ->
  exists sc',
    calc_radar_parameters E self wl
    = Done (with_series self
              (map (fun t => 10 * np_log10 (obs_Zdr (obs t)))
                   (seq 0 (length (time self))))
              (map (fun t => 10 * np_log10 (obs_refl (obs t)))
                   (seq 0 (length (time self))))
              (map (fun t => obs_Kdp (obs t)) (seq 0 (length (time self))))
              (map (fun t => obs_Ai (obs t)) (seq 0 (length (time self)))),
            sc').
Proof.
  intros Hsetup Hzh L1 L2 L3 L4 Hobs.
  unfold calc_radar_parameters. rewrite Hsetup. cbn [obind].
  assert (E0 : (self, sc)
               = (with_series self (Zdr self) zh (Kdp self) (Ai self), sc))
    by (f_equal; apply with_series_self; exact Hzh).
  rewrite E0. clear E0.
  destruct (calc_radar_parameters_loop_ok E self sc obs (length (time self))
              (seq 0 (length (time self))) sc (Zdr self) zh (Kdp self)
              (Ai self)) as (sc' & Hloop & _); auto.
  - intros p g. reflexivity.
  - apply Forall_forall. intros t Ht. apply in_seq in Ht.
    split; [lia|]. apply Hobs. lia.
  - exists sc'. rewrite Hloop. rewrite !fill_all_any by assumption.
    reflexivity.
Qed.

(** X19.  For a wavelength that is not a key of the refractive-index table,
    [calc_radar_parameters] raises [KeyError] for every object, before the
    scattering table is built and before any timestep is looked at. *)
Theorem calc_radar_parameters_unsupported (E : Pytmatrix)
  (self : DropSizeDistribution) (wl : R) :
  m_w_10C E wl = None ->
  calc_radar_parameters E self wl = Failed KeyError.
Proof.
  intros H. unfold calc_radar_parameters, _setup_scattering.
  rewrite H. reflexivity.
Qed.

Lemma sample_unsupported : m_w_10C sample_pytmatrix 1 = None.
Proof.
  cbn. destruct (Req_dec_T 1 33.3); [lra|].
  destruct (Req_dec_T 1 53.5); [lra | reflexivity].
Qed.

Lemma calc_radar_parameters_unsupported_witness :
  calc_radar_parameters sample_pytmatrix dsd_scenario 1 = Failed KeyError.
Proof.
  apply (calc_radar_parameters_unsupported sample_pytmatrix dsd_scenario 1).
  exact sample_unsupported.
Defined.


Lemma sample_setup :
  _setup_scattering sample_pytmatrix 33.3 = Done sample_scatterer.
Proof.
  unfold _setup_scattering. cbn.
  destruct (Req_dec_T 33.3 33.3) as [_ | N]; [reflexivity | contradiction].
Qed.

Lemma sample_observables (t : nat) :
  (t < length (time dsd_scenario))%nat ->
  exists row, nth_error (Nd dsd_scenario) t = Some row /\
    observables sample_pytmatrix sample_scatterer (bin_edges dsd_scenario) row
    = Ok (sample_obs t).
Proof.
  intros Ht. cbn in Ht. destruct t as [|t]; [|lia].
  exists [0; 2; 0]. split; reflexivity.
Qed.


Lemma idb_of_dB (r : R) : 0 < r -> Rpower 10 (0.1 * (10 * np_log10 r)) = r.
Proof.
  intros Hr. unfold Rpower, np_log10.
  assert (H10 : 0 < ln 10) by (rewrite <- ln_1; apply ln_increasing; lra).
  replace (0.1 * (10 * (ln r / ln 10)) * ln 10) with (ln r)
    by (replace 0.1 with (/ 10) by lra; field; lra).
  apply exp_ln. exact Hr.
Qed.

Lemma radar_then_Zh (E : Pytmatrix) (expfit : expfit_t)
  (self : DropSizeDistribution) (wl : R) (sc : scatterer E) (zh rr : list R)
  (obs : nat -> R * R * R * R) :
  _setup_scattering E wl = Done sc ->
  Zh self = Some zh ->
  length (Zdr self) = length (time self) ->
  length zh = length (time self) ->
  length (Kdp self) = length (time self) ->
  length (Ai self) = length (time self) ->
  (forall t, (t < length (time self))%nat ->
     exists row, nth_error (Nd self) t = Some row /\
       observables E sc (bin_edges self) row = Ok (obs t)) ->
  rain_rate self = Some rr -> length rr = length (time self) ->
  (forall t, (t < length (time self))%nat -> 0 < obs_refl (obs t)) ->
  exists self' sc',
    calc_radar_parameters E self wl = Done (self', sc') /\
    calc_R_Zh_relationship expfit self'
    = fit_outcome
        (expfit (map (fun t => obs_refl (obs t))
                     (kept (rr_positive rr) (length rr)))
                (at_steps rr (kept (rr_positive rr) (length rr)))).
Proof.
  intros Hsetup Hzh L1 L2 L3 L4 Hobs Hrr Lrr Hpos.
  destruct (calc_radar_parameters_correct E self wl sc zh obs)
    as (sc' & Hrun); auto.
  eexists. exists sc'. split; [exact Hrun|].
  rewrite (calc_R_Zh_relationship_steps expfit _ rr
             (map (fun t => 10 * np_log10 (obs_refl (obs t)))
                  (seq 0 (length (time self))))).
  - do 2 f_equal. unfold at_steps. rewrite map_map.
    apply map_ext_in. intros t Ht. apply kept_In in Ht. destruct Ht as [Ht _].
    rewrite (nth_map_lt _ (seq 0 (length (time self))) t 0%nat 0)
      by (rewrite length_seq; lia).
    rewrite seq_nth by lia. cbn [Nat.add].
    apply idb_of_dB. apply Hpos. lia.
  - exact Hrr.
  - reflexivity.
  - rewrite length_map, length_seq. congruence.
Qed.


